(** * Metrics collector of the fraud-detection service

    A shallow embedding of [src/metrics_collector.py]: the metric buffer, the
    rolling business series, the namespace classifier, the anomaly checker,
    the batched flush to the CloudWatch sink and the histogram-based drift
    estimator, followed by the properties established about them.

    Conventions of the embedding.
    - A Python value of type [Any] is a [pyval]; a float is a [pyfloat], an
      exact rational or one of the special values, so comparisons are exact
      and rounding is not modelled.
    - A [dict] keeps its keys in insertion order, as Python's does; it is an
      association list whose lookups and updates act on the first entry of a
      key.
    - A method of the collector is a computation [M A]: it threads the
      collector object and the trace of outside effects (log records, calls
      to the sink) and ends in a value or in a raised exception.  What was
      mutated before a raise stays mutated.
    - [datetime.now()] is an argument of the operation that reads it. *)

From Stdlib Require Import List String Ascii Bool Arith ZArith QArith Lia.
From Stdlib Require Import DecimalString Reals Qreals Lra Permutation.
Import ListNotations.

Close Scope Q_scope.
Close Scope R_scope.
Close Scope Z_scope.

Set Implicit Arguments.

(* ================================================================== *)
(** * Python values, exceptions and dictionaries *)

Module Py.

(** The exceptions that occur in the collector; all derive from
    [Exception], so an [except Exception] clause catches each of them. *)
Inductive exn : Type :=
| TypeError
| ValueError
| OverflowError
| KeyError (key : string)
| IndexError
| NameError (name : string)
| ClientError (message : string).

Inductive result (A : Type) : Type :=
| Ok (a : A)
| Raise (e : exn).
Arguments Ok {A} a.
Arguments Raise {A} e.

Definition is_ok {A} (r : result A) : bool :=
  match r with Ok _ => true | Raise _ => false end.

Inductive pyfloat : Type :=
| FNaN
| FInf (negative : bool)
| FFin (q : Q).

#[warnings="-register-all"]
Inductive pyval : Type :=
| PyNone
| PyBool (b : bool)
| PyInt (z : Z)
| PyFloat (f : pyfloat)
| PyStr (s : string)
| PyList (items : list pyval).

(** ** Ordered dictionaries *)

Definition dict (V : Type) : Type := list (string * V).

Fixpoint dict_get {V} (k : string) (d : dict V) : option V :=
  match d with
  | [] => None
  | (k', v) :: d' => if String.eqb k k' then Some v else dict_get k d'
  end.

(** [d.get(k, default)] *)
Definition get {V} (d : dict V) (k : string) (default : V) : V :=
  match dict_get k d with Some v => v | None => default end.

(** [k in d] *)
Definition contains_key {V} (k : string) (d : dict V) : bool :=
  match dict_get k d with Some _ => true | None => false end.

(** [d[k]] on a plain dictionary *)
Definition getitem {V} (d : dict V) (k : string) : result V :=
  match dict_get k d with Some v => Ok v | None => Raise (KeyError k) end.

(** [d[k] = f(d[k])] on a [defaultdict] whose factory yields [fresh]: a
    missing key is created at the end, with [f fresh]. *)
Fixpoint dict_update {V} (k : string) (f : V -> V) (fresh : V) (d : dict V)
  : dict V :=
  match d with
  | [] => [(k, f fresh)]
  | (k', v) :: d' =>
      if String.eqb k k' then (k', f v) :: d'
      else (k', v) :: dict_update k f fresh d'
  end.

(** [d.values()] and [d.keys()] *)
Definition values {V} (d : dict V) : list V := map snd d.
Definition keys {V} (d : dict V) : list string := map fst d.

(** ** Comparison of floats: every comparison with a NaN is false. *)

Definition float_le (a b : pyfloat) : bool :=
  match a, b with
  | FNaN, _ | _, FNaN => false
  | FInf true, _ => true
  | _, FInf false => true
  | FInf false, _ => false
  | _, FInf true => false
  | FFin x, FFin y => Qle_bool x y
  end.

Definition float_lt (a b : pyfloat) : bool :=
  match a, b with
  | FNaN, _ | _, FNaN => false
  | FInf false, _ => false
  | _, FInf true => false
  | FInf true, _ => true
  | _, FInf false => true
  | FFin x, FFin y => negb (Qle_bool y x)
  end.

(** ** The builtin [float()] *)

(** The largest magnitude an [int] may have for [float(int)] not to raise:
    from [2^1024 - 2^970] on, rounding to nearest leaves the doubles. *)
Definition int_float_limit : Z := (2 ^ 1024 - 2 ^ 970)%Z.

Section Float.

(** The conversion of a [str], Python's own parser of float literals. *)
Variable float_of_string : string -> option pyfloat.

Definition py_float (v : pyval) : result pyfloat :=
  match v with
  | PyFloat f => Ok f
  | PyBool b => Ok (FFin (if b then 1 else 0))
  | PyInt z =>
      if (Z.abs z <? int_float_limit)%Z then Ok (FFin (inject_Z z))
      else Raise OverflowError
  | PyStr s =>
      match float_of_string s with
      | Some f => Ok f
      | None => Raise ValueError
      end
  | PyNone => Raise TypeError
  | PyList _ => Raise TypeError
  end.

End Float.

(** ** Float literals over ASCII

    The grammar [float()] accepts, for strings of ASCII characters: optional
    surrounding whitespace, an optional sign, then [inf], [infinity], [nan]
    (in any case) or a decimal number with an optional exponent, where
    single underscores may separate digits. *)

Definition is_space (c : ascii) : bool :=
  let n := nat_of_ascii c in
  ((9 <=? n) && (n <=? 13)) || (n =? 32).

Definition digit_of (c : ascii) : option Z :=
  let n := nat_of_ascii c in
  if (48 <=? n) && (n <=? 57) then Some (Z.of_nat (n - 48)) else None.

Definition lower (c : ascii) : ascii :=
  let n := nat_of_ascii c in
  if (65 <=? n) && (n <=? 90) then ascii_of_nat (n + 32) else c.

Fixpoint lstrip (l : list ascii) : list ascii :=
  match l with
  | c :: r => if is_space c then lstrip r else l
  | [] => []
  end.

Definition strip (l : list ascii) : list ascii :=
  rev (lstrip (rev (lstrip l))).

(** [digitpart ::= digit (["_"] digit)*]; the digits read so far are [acc]
    (most significant first), and the unread rest is returned. *)
Fixpoint digitpart (l : list ascii) (acc : list Z) : list Z * list ascii :=
  match l with
  | c :: r =>
      match digit_of c with
      | Some d => digitpart r (acc ++ [d])
      | None =>
          match acc, r with
          | _ :: _, c' :: r' =>
              match Ascii.eqb c "_", digit_of c' with
              | true, Some d => digitpart r' (acc ++ [d])
              | _, _ => (acc, l)
              end
          | _, _ => (acc, l)
          end
      end
  | [] => (acc, [])
  end.

Definition digits_value (ds : list Z) : Z :=
  fold_left (fun v d => (10 * v + d)%Z) ds 0%Z.

Definition read_sign (l : list ascii) : bool * list ascii :=
  match l with
  | c :: r =>
      if Ascii.eqb c "-" then (true, r)
      else if Ascii.eqb c "+" then (false, r)
      else (false, l)
  | [] => (false, [])
  end.

(** [exponent ::= ("e" | "E") [sign] digitpart], or nothing *)
Definition read_exponent (l : list ascii) : option Z :=
  match l with
  | [] => Some 0%Z
  | c :: r =>
      if Ascii.eqb (lower c) "e" then
        let '(neg, r1) := read_sign r in
        match digitpart r1 [] with
        | ((_ :: _) as ds, []) =>
            Some (if neg then (- digits_value ds)%Z else digits_value ds)
        | _ => None
        end
      else None
  end.

(** [number ::= [digitpart] "." digitpart | digitpart ["."]] *)
Definition read_number (l : list ascii) : option Q :=
  let '(ip, r1) := digitpart l [] in
  let '(fp, r2) :=
    match r1 with
    | c :: r =>
        if Ascii.eqb c "." then
          (* a fraction starts with a digit, never with an underscore *)
          digitpart r []
        else ([], r1)
    | [] => ([], [])
    end in
  match ip, fp with
  | [], [] => None
  | _, _ =>
      match read_exponent r2 with
      | Some e =>
          let mantissa := digits_value (ip ++ fp) in
          let scale := (e - Z.of_nat (List.length fp))%Z in
          Some (inject_Z mantissa * Qpower (inject_Z 10) scale)%Q
      | None => None
      end
  end.

Definition ascii_float_of_string (s : string) : option pyfloat :=
  let '(neg, body) := read_sign (strip (list_ascii_of_string s)) in
  let word := string_of_list_ascii (map lower body) in
  if String.eqb word "inf" || String.eqb word "infinity" then Some (FInf neg)
  else if String.eqb word "nan" then Some FNaN
  else
    match read_number body with
    | Some q => Some (FFin (if neg then - q else q)%Q)
    | None => None
    end.

End Py.

(* ================================================================== *)
(** * Bounded deques: [collections.deque(maxlen=...)] *)

Module Deque.

(** [d.append(x)]: the value goes to the right end, and when that leaves
    more than [maxlen] items the leftmost one is dropped. *)
Definition append {A} (maxlen : nat) (x : A) (d : list A) : list A :=
  let d' := d ++ [x] in
  if maxlen <? List.length d' then tl d' else d'.

(** Appending the items of [xs] from left to right. *)
Definition extend {A} (maxlen : nat) (xs : list A) (d : list A) : list A :=
  fold_left (fun d x => append maxlen x d) xs d.

End Deque.

(* ================================================================== *)
(** * The namespace classifier *)

Module Namespace.

Open Scope string_scope.

Definition API := "FraudDetection/API".
Definition ML := "FraudDetection/ML".
Definition Business := "FraudDetection/Business".
Definition Cost := "FraudDetection/Cost".
Definition Security := "FraudDetection/Security".
Definition Custom := "FraudDetection/Custom".

(** [s.startswith(p)] *)
Definition startswith (s p : string) : bool := String.prefix p s.

(** [sub in s]: [sub] occurs in [s] at some position. *)
Fixpoint contains (sub s : string) : bool :=
  String.prefix sub s
  || match s with
     | EmptyString => false
     | String _ rest => contains sub rest
     end.

Definition _get_metric_namespace (metric_name : string) : string :=
  if startswith metric_name "api_" then API
  else if startswith metric_name "prediction_"
          || startswith metric_name "fraud_" then ML
  else if startswith metric_name "business_"
          || startswith metric_name "claims_" then Business
  else if startswith metric_name "cost_"
          || contains "cost" metric_name then Cost
  else if startswith metric_name "security_" then Security
  else Custom.

(** The rule table in the words of the specification, in priority order,
    and its evaluation: the namespace of the first rule that matches. *)
Definition rule : Type := (string -> bool) * string.

Definition rules : list rule :=
  [ (fun n => startswith n "api_", API);
    (fun n => startswith n "prediction_" || startswith n "fraud_", ML);
    (fun n => startswith n "business_" || startswith n "claims_", Business);
    (fun n => startswith n "cost_" || contains "cost" n, Cost);
    (fun n => startswith n "security_", Security) ].

Fixpoint first_match (rs : list rule) (otherwise n : string) : string :=
  match rs with
  | [] => otherwise
  | (applies, ns) :: rest =>
      if applies n then ns else first_match rest otherwise n
  end.

Close Scope string_scope.

End Namespace.

(* ================================================================== *)
(** * The collector *)

Module Collector.

Import Py.
Open Scope string_scope.

(** What a method without a [return] value yields. *)
Definition NoneType : Type := Datatypes.unit.

(** [@dataclass MetricData] *)
Record MetricData : Type := mkMetricData {
  name : string;
  value : pyval;
  unit : string;
  timestamp : Z;
  dimensions : dict pyval
}.

(** One entry of the [MetricData] argument of [put_metric_data]; the key
    [Dimensions] is present only for a metric with dimensions, and holds
    the [(Name, Value)] pairs. *)
Record MetricDatum : Type := mkMetricDatum {
  MetricName : string;
  Value : pyval;
  Unit : string;
  Timestamp : Z;
  Dimensions : option (list (string * pyval))
}.

Inductive level : Type := INFO | WARNING | ERROR.

(** What a log message interpolates: nothing, the exception caught, or a
    number of metrics. *)
Inductive detail : Type :=
| NoDetail
| Cause (e : exn)
| Count (n : nat).

(** The effects that leave the collector: a record handed to [logger], and
    a call of the sink's [put_metric_data], accepted or not. *)
Inductive event : Type :=
| Logged (lvl : level) (message : string) (d : detail)
| PutMetricData (Namespace : string) (batch : list MetricDatum).

(** The attributes of a [MetricsCollector]; the deques of
    [business_metrics] are lists, oldest value first. *)
Record MetricsCollector : Type := mkCollector {
  region : string;
  metric_buffer : dict (list MetricData);
  business_metrics : dict (list pyval);
  baseline_metrics : dict (list pyval);
  drift_window_size : nat
}.

(** [defaultdict(lambda: deque(maxlen=1000))] *)
Definition business_maxlen : nat := 1000.

(** [MetricsCollector.__init__] *)
Definition init (region : string) : MetricsCollector :=
  {| region := region;
     metric_buffer := [];
     business_metrics := [];
     baseline_metrics := [];
     drift_window_size := 100 |}.

Definition set_metric_buffer (b : dict (list MetricData))
  (c : MetricsCollector) : MetricsCollector :=
  {| region := region c;
     metric_buffer := b;
     business_metrics := business_metrics c;
     baseline_metrics := baseline_metrics c;
     drift_window_size := drift_window_size c |}.

Definition set_business_metrics (b : dict (list pyval))
  (c : MetricsCollector) : MetricsCollector :=
  {| region := region c;
     metric_buffer := metric_buffer c;
     business_metrics := b;
     baseline_metrics := baseline_metrics c;
     drift_window_size := drift_window_size c |}.

(** ** Computations *)

Record world : Type := mkWorld {
  self : MetricsCollector;
  trace : list event
}.

Definition M (A : Type) : Type := world -> result A * world.

Definition ret {A} (a : A) : M A := fun w => (Ok a, w).

Definition bind {A B} (m : M A) (k : A -> M B) : M B :=
  fun w =>
    match m w with
    | (Ok a, w') => k a w'
    | (Raise e, w') => (Raise e, w')
    end.

Definition raise {A} (e : exn) : M A := fun w => (Raise e, w).

Definition lift {A} (r : result A) : M A := fun w => (r, w).

(** [try: body  except Exception as e: handler e] *)
Definition try_except {A} (body : M A) (handler : exn -> M A) : M A :=
  fun w =>
    match body w with
    | (Ok a, w') => (Ok a, w')
    | (Raise e, w') => handler e w'
    end.

Declare Scope py_scope.
Delimit Scope py_scope with py.
Notation "x <- m ;; k" := (bind m (fun x => k))
  (at level 61, m at next level, right associativity) : py_scope.
Notation "m ;; k" := (bind m (fun _ => k))
  (at level 61, right associativity) : py_scope.
Open Scope py_scope.

Definition emit (e : event) : M NoneType :=
  fun w => (Ok tt, {| self := self w; trace := (trace w ++ [e])%list |}).

Definition log (lvl : level) (message : string) (d : detail) : M NoneType :=
  emit (Logged lvl message d).

Definition update (f : MetricsCollector -> MetricsCollector) : M NoneType :=
  fun w => (Ok tt, {| self := f (self w); trace := trace w |}).

Definition read {A} (f : MetricsCollector -> A) : M A :=
  fun w => (Ok (f (self w)), w).

(** [for x in l: body x] *)
Fixpoint for_each {A} (l : list A) (body : A -> M NoneType) : M NoneType :=
  match l with
  | [] => ret tt
  | x :: rest => body x ;; for_each rest body
  end.

(** ** Recording *)

(** [self.metric_buffer[name].append(metric)] *)
Definition buffer_append (metric : MetricData)
  (b : dict (list MetricData)) : dict (list MetricData) :=
  dict_update (name metric) (fun l => (l ++ [metric])%list) [] b.

Definition _record_metric (name : string) (value : pyval) (unit : string)
  (dimensions : dict pyval) (timestamp : Z) : M NoneType :=
  let metric := mkMetricData name value unit timestamp dimensions in
  update (fun c => set_metric_buffer (buffer_append metric (metric_buffer c)) c).

(** [self.business_metrics[series].append(x)] *)
Definition business_append (series : string) (x : pyval)
  (b : dict (list pyval)) : dict (list pyval) :=
  dict_update series (Deque.append business_maxlen x) [] b.

Definition key_features : list string :=
  ["months_as_customer"; "age"; "total_claim_amount";
   "claim_ratio"; "incident_severity"].

Section Prediction.

Variable float_of_string : string -> option pyfloat.

Definition _collect_feature_metrics (claim_data : dict pyval)
  (timestamp : Z) : M NoneType :=
  for_each key_features (fun feature =>
    if contains_key feature claim_data then
      item <- lift (getitem claim_data feature) ;;
      v <- lift (py_float float_of_string item) ;;
      _record_metric ("feature_" ++ feature) (PyFloat v) "None"
        [("FeatureType", PyStr "input")] timestamp
    else ret tt).

(** [now] is the reading of [datetime.now()] at entry. *)
Definition collect_prediction_metrics (prediction_data : dict pyval)
  (processing_time : pyval) (claim_data : dict pyval) (now : Z)
  : M NoneType :=
  let timestamp := now in
  _record_metric "prediction_processing_time" processing_time "Milliseconds"
    [("RiskLevel", get prediction_data "risk_level" (PyStr "UNKNOWN"));
     ("ModelVersion", get prediction_data "model_version" (PyStr "1.0"))]
    timestamp ;;
  _record_metric "fraud_probability"
    (get prediction_data "fraud_probability" (PyInt 0)) "None"
    [("RiskLevel", get prediction_data "risk_level" (PyStr "UNKNOWN"))]
    timestamp ;;
  _record_metric "model_confidence"
    (get prediction_data "confidence" (PyInt 0)) "None"
    [("ModelVersion", get prediction_data "model_version" (PyStr "1.0"))]
    timestamp ;;
  update (fun c => set_business_metrics
    (business_append "fraud_probabilities"
       (get prediction_data "fraud_probability" (PyInt 0))
       (business_metrics c)) c) ;;
  update (fun c => set_business_metrics
    (business_append "confidences"
       (get prediction_data "confidence" (PyInt 0))
       (business_metrics c)) c) ;;
  _collect_feature_metrics claim_data timestamp.

End Prediction.

(** ** Anomalies *)

Definition _check_business_anomalies (fraud_rate avg_fraud_prob
  avg_confidence : pyfloat) (now : Z) : M NoneType :=
  let normal_fraud_rate_range := (FFin 0.05, FFin 0.25) in
  let normal_confidence_range := (FFin 0.6, FFin 1.0) in
  let timestamp := now in
  (if negb (float_le (fst normal_fraud_rate_range) fraud_rate
            && float_le fraud_rate (snd normal_fraud_rate_range))
   then
     _record_metric "business_anomaly_detected" (PyInt 1) "Count"
       [("AnomalyType", PyStr "FraudRate");
        ("Severity",
         PyStr (if float_lt (FFin 0.4) fraud_rate then "HIGH" else "MEDIUM"))]
       timestamp
   else ret tt) ;;
  (if float_lt avg_confidence (fst normal_confidence_range)
   then
     _record_metric "business_anomaly_detected" (PyInt 1) "Count"
       [("AnomalyType", PyStr "LowConfidence");
        ("Severity", PyStr "MEDIUM")]
       timestamp
   else ret tt).

(** ** Flushing to the sink *)

Definition to_metric_datum (metric : MetricData) : MetricDatum :=
  {| MetricName := name metric;
     Value := value metric;
     Unit := unit metric;
     Timestamp := timestamp metric;
     Dimensions :=
       match dimensions metric with
       | [] => None
       | items => Some items
       end |}.

(** [namespaced_metrics[namespace].append(metric_data)] for one metric *)
Definition group_step (namespaced_metrics : dict (list MetricDatum))
  (metric : MetricData) : dict (list MetricDatum) :=
  let namespace := Namespace._get_metric_namespace (name metric) in
  let metric_data := to_metric_datum metric in
  dict_update namespace (fun l => (l ++ [metric_data])%list) []
    namespaced_metrics.

(** The two loops that fill [namespaced_metrics]: the lists of the buffer
    in the order of its keys, each from its oldest metric on. *)
Definition group_by_namespace (buffer : dict (list MetricData))
  : dict (list MetricDatum) :=
  fold_left group_step (List.concat (values buffer)) [].

(** [range(start, stop, step)] for a positive [step] *)
Definition py_range (start stop step : nat) : list nat :=
  map (fun k => start + k * step)
    (seq 0 ((stop - start + (step - 1)) / step)).

(** [l[i:j]] for [0 <= i <= j] *)
Definition slice {A} (i j : nat) (l : list A) : list A :=
  firstn (j - i) (skipn i l).

Definition batch_limit : nat := 20.

Section Flush.

(** The sink: how [put_metric_data] answers a call, given the effects so
    far; [None] when it accepts the batch, the exception it raises
    otherwise. *)
Variable cloudwatch : list event -> string -> list MetricDatum -> option exn.

Definition put_metric_data (Namespace : string)
  (MetricData : list MetricDatum) : M NoneType :=
  fun w =>
    let w' := {| self := self w;
                 trace := (trace w ++ [PutMetricData Namespace MetricData])%list |} in
    match cloudwatch (trace w) Namespace MetricData with
    | None => (Ok tt, w')
    | Some e => (Raise e, w')
    end.

Definition send_batches (namespaced_metrics : dict (list MetricDatum))
  : M NoneType :=
  for_each namespaced_metrics (fun '(namespace, metrics) =>
    for_each (py_range 0 (List.length metrics) batch_limit) (fun i =>
      let batch := slice i (i + batch_limit) metrics in
      put_metric_data namespace batch)).

Definition flush_metrics : M NoneType :=
  buffer <- read metric_buffer ;;
  match buffer with
  | [] => ret tt
  | _ :: _ =>
      try_except
        (let namespaced_metrics := group_by_namespace buffer in
         send_batches namespaced_metrics ;;
         update (set_metric_buffer []) ;;
         log INFO "Flushed metrics to CloudWatch"
           (Count (list_sum (map (@List.length _) (values namespaced_metrics)))))
        (fun e => log ERROR "Failed to flush metrics to CloudWatch" (Cause e))
  end.

End Flush.

(** ** Business aggregates *)

Definition _get_recent_predictions (start_time end_time : Z)
  : M (list (dict pyval)) :=
  ret [].

(** [v == 1] *)
Definition py_eq_one (v : pyval) : bool :=
  match v with
  | PyInt z => (z =? 1)%Z
  | PyBool b => b
  | PyFloat (FFin q) => Qeq_bool q 1
  | _ => false
  end.

(** [p.get('risk_level') in ['HIGH', 'CRITICAL']] *)
Definition is_high_risk (p : dict pyval) : bool :=
  match dict_get "risk_level" p with
  | Some (PyStr s) => String.eqb s "HIGH" || String.eqb s "CRITICAL"
  | _ => false
  end.

Definition str_of_int (z : Z) : string :=
  DecimalString.NilZero.string_of_int (Z.to_int z).

(** *** Dates and durations

    In this operation a [datetime] is the number of microseconds since
    [datetime.min], the first instant of year 1; the last one,
    [datetime.max], is the last microsecond of year 9999, 3652059 days
    later. A [timedelta] is a number of microseconds. *)

Definition microseconds_per_hour : Z := 3600 * 1000000.
Definition microseconds_per_day : Z := 24 * microseconds_per_hour.

Definition datetime_max : Z := 3652059 * microseconds_per_day - 1.

Definition max_delta_days : Z := 999999999.

(** [timedelta(hours=h)] for an [int]: the duration is normalised to
    whole days, rounded down, and a rest; it is refused when the days
    exceed 999999999 in magnitude. *)
Definition timedelta_hours (h : Z) : result Z :=
  let microseconds := (h * microseconds_per_hour)%Z in
  let days := (microseconds / microseconds_per_day)%Z in
  if ((- max_delta_days <=? days) && (days <=? max_delta_days))%Z
  then Ok microseconds
  else Raise OverflowError.

(** [d - delta]: refused when the result leaves the years 1 to 9999. *)
Definition datetime_sub (d delta : Z) : result Z :=
  let difference := (d - delta)%Z in
  if ((0 <=? difference) && (difference <=? datetime_max))%Z
  then Ok difference
  else Raise OverflowError.

Section Business.

(** [np.mean] of a list of values; it raises on what is not a number. *)
Variable np_mean : list pyval -> result pyfloat.

(** [now], [now'] and [now''] are the readings of [datetime.now()]: at
    entry, before recording, and inside the anomaly check. *)
Definition collect_business_metrics (time_period_hours : Z)
  (now now' now'' : Z) : M NoneType :=
  let end_time := now in
  period <- lift (timedelta_hours time_period_hours) ;;
  start_time <- lift (datetime_sub end_time period) ;;
  predictions <- _get_recent_predictions start_time end_time ;;
  match predictions with
  | [] => log WARNING "No recent predictions found for business metrics" NoDetail
  | _ :: _ =>
      let total_claims := List.length predictions in
      let fraud_claims :=
        List.length (filter (fun p => py_eq_one (get p "is_fraud" (PyInt 0)))
                       predictions) in
      let high_risk_claims := List.length (filter is_high_risk predictions) in
      let rate (k : nat) : Q :=
        if (0 <? total_claims)%nat
        then (inject_Z (Z.of_nat k) / inject_Z (Z.of_nat total_claims))%Q
        else 0%Q in
      let fraud_rate := rate fraud_claims in
      let high_risk_rate := rate high_risk_claims in
      avg_fraud_prob <-
        lift (np_mean (map (fun p => get p "fraud_probability" (PyInt 0))
                         predictions)) ;;
      avg_confidence <-
        lift (np_mean (map (fun p => get p "confidence" (PyInt 0))
                         predictions)) ;;
      let timestamp := now' in
      let business_metrics :=
        [("claims_processed_total", PyInt (Z.of_nat total_claims), "Count");
         ("fraud_detection_rate", PyFloat (FFin (fraud_rate * 100)), "Percent");
         ("high_risk_claims_rate", PyFloat (FFin (high_risk_rate * 100)),
          "Percent");
         ("average_fraud_probability", PyFloat avg_fraud_prob, "None");
         ("average_model_confidence", PyFloat avg_confidence, "None")] in
      for_each business_metrics (fun '(metric_name, value, unit) =>
        _record_metric metric_name value unit
          [("TimePeriod", PyStr (str_of_int time_period_hours ++ "h"))]
          timestamp) ;;
      _check_business_anomalies (FFin fraud_rate) avg_fraud_prob
        avg_confidence now''
  end.

End Business.

(** ** Cost *)

(** The names bound in the module [metrics_collector]: its imports (lines
    6 to 14), [logger], and what it defines. *)
Definition module_globals : list string :=
  ["boto3"; "time"; "json"; "logging"; "datetime"; "timedelta";
   "Dict"; "List"; "Any"; "Optional"; "dataclass"; "np";
   "defaultdict"; "deque"; "logger"; "MetricData"; "MetricsCollector";
   "metrics_collector"; "collect_prediction_metrics";
   "collect_api_metrics"; "flush_all_metrics"].

(** Reading a global name that is not a builtin. *)
Definition load_global (name : string) : M NoneType :=
  if existsb (String.eqb name) module_globals then ret tt
  else raise (NameError name).

Record ProductionVariant : Type := mkVariant {
  InstanceType : string;
  CurrentInstanceCount : Z
}.

Record EndpointInfo : Type := mkEndpointInfo {
  ProductionVariants : list ProductionVariant
}.

(** [len(self.business_metrics['fraud_probabilities'])]; indexing the
    [defaultdict] creates a missing series. *)
Definition _get_hourly_prediction_count : M nat :=
  update (fun c => set_business_metrics
    (dict_update "fraud_probabilities" (fun d => d) [] (business_metrics c)) c) ;;
  read (fun c => List.length (get (business_metrics c) "fraud_probabilities" [])).

Definition instance_costs : dict Q :=
  [("ml.t2.medium", 0.065%Q); ("ml.m5.large", 0.134%Q);
   ("ml.m5.xlarge", 0.269%Q); ("ml.m5.2xlarge", 0.538%Q)].

Section Cost.

(** The SageMaker service, and the environment of the process. *)
Variable describe_endpoint : string -> result EndpointInfo.
Variable environ : dict string.

Definition collect_cost_metrics (now : Z) : M NoneType :=
  (* sagemaker = boto3.client('sagemaker', region_name=self.region) *)
  load_global "boto3" ;;
  try_except
    (load_global "os" ;;
     let EndpointName := get environ "ENDPOINT_NAME" "fraud-detection-endpoint" in
     endpoint_info <- lift (describe_endpoint EndpointName) ;;
     variant <- lift (match ProductionVariants endpoint_info with
                      | v :: _ => Ok v
                      | [] => Raise IndexError
                      end) ;;
     let instance_type := InstanceType variant in
     let instance_count := CurrentInstanceCount variant in
     let hourly_cost :=
       (get instance_costs instance_type 0.134 * inject_Z instance_count)%Q in
     hourly_predictions <- _get_hourly_prediction_count ;;
     let cost_per_prediction :=
       if (0 <? hourly_predictions)%nat
       then PyFloat (FFin (hourly_cost / inject_Z (Z.of_nat hourly_predictions)))
       else PyInt 0 in
     let predictions_per_dollar :=
       if negb (Qle_bool hourly_cost 0)
       then PyFloat (FFin (inject_Z (Z.of_nat hourly_predictions) / hourly_cost))
       else PyInt 0 in
     let timestamp := now in
     let cost_metrics :=
       [("sagemaker_hourly_cost", PyFloat (FFin hourly_cost), "None");
        ("cost_per_prediction", cost_per_prediction, "None");
        ("predictions_per_dollar", predictions_per_dollar, "Count");
        ("active_instances", PyInt instance_count, "Count")] in
     for_each cost_metrics (fun '(metric_name, value, unit) =>
       _record_metric metric_name value unit
         [("InstanceType", PyStr instance_type)] timestamp))
    (fun e => log ERROR "Failed to collect cost metrics" (Cause e)).

End Cost.

Close Scope py_scope.
Close Scope string_scope.

End Collector.

(* ================================================================== *)
(** * The drift estimator

    The samples are finite floats, read as exact rationals; the histogram
    counts are computed on them.  From the density on, a float is a real
    number or one of the special values of IEEE arithmetic ([npfloat]),
    since the divergence takes logarithms.  Zero has no sign here, and
    under NumPy's default error state an invalid operation yields a NaN
    (with a warning) and raises nothing. *)

Module Drift.

Import Py.

Inductive npfloat : Type :=
| NaN
| PInf
| NInf
| Num (r : R).

Definition sign_of (r : R) : comparison :=
  match total_order_T r 0 with
  | inleft (left _) => Lt
  | inleft (right _) => Eq
  | inright _ => Gt
  end.

Definition fadd (a b : npfloat) : npfloat :=
  match a, b with
  | NaN, _ | _, NaN => NaN
  | PInf, NInf | NInf, PInf => NaN
  | PInf, _ | _, PInf => PInf
  | NInf, _ | _, NInf => NInf
  | Num x, Num y => Num (x + y)
  end.

Definition fneg (a : npfloat) : npfloat :=
  match a with
  | NaN => NaN
  | PInf => NInf
  | NInf => PInf
  | Num x => Num (- x)
  end.

(** An infinity scaled by a finite factor. *)
Definition scale_inf (inf : npfloat) (y : R) : npfloat :=
  match sign_of y with
  | Gt => inf
  | Lt => fneg inf
  | Eq => NaN
  end.

Definition fmul (a b : npfloat) : npfloat :=
  match a, b with
  | NaN, _ | _, NaN => NaN
  | Num x, Num y => Num (x * y)
  | PInf, PInf | NInf, NInf => PInf
  | PInf, NInf | NInf, PInf => NInf
  | PInf, Num y | Num y, PInf => scale_inf PInf y
  | NInf, Num y | Num y, NInf => scale_inf NInf y
  end.

Definition fdiv (a b : npfloat) : npfloat :=
  match a, b with
  | NaN, _ | _, NaN => NaN
  | Num x, Num y =>
      match sign_of y, sign_of x with
      | Eq, Eq => NaN
      | Eq, Gt => PInf
      | Eq, Lt => NInf
      | _, _ => Num (x / y)
      end
  | Num _, (PInf | NInf) => Num 0
  | (PInf | NInf), (PInf | NInf) => NaN
  | PInf, Num y => match sign_of y with Lt => NInf | _ => PInf end
  | NInf, Num y => match sign_of y with Lt => PInf | _ => NInf end
  end.

(** [np.log] *)
Definition flog (a : npfloat) : npfloat :=
  match a with
  | NaN | NInf => NaN
  | PInf => PInf
  | Num x =>
      match sign_of x with
      | Gt => Num (ln x)
      | Eq => NInf
      | Lt => NaN
      end
  end.

(** [np.sum] of a one-dimensional array *)
Definition np_sum (a : list npfloat) : npfloat :=
  fold_left fadd a (Num 0).

(** An operation applied element by element to two arrays. *)
Fixpoint zip_with {A B C} (f : A -> B -> C) (a : list A) (b : list B)
  : list C :=
  match a, b with
  | x :: a', y :: b' => f x y :: zip_with f a' b'
  | _, _ => []
  end.

(** [np.linspace(start, stop, num)] *)
Definition np_linspace (start stop : Q) (num : nat) : list Q :=
  map (fun i => start + inject_Z (Z.of_nat i)
                        * ((stop - start) / inject_Z (Z.of_nat (num - 1))))%Q
    (seq 0 num).

(** [np.diff] *)
Fixpoint np_diff (a : list Q) : list Q :=
  match a with
  | x :: ((y :: _) as rest) => (y - x)%Q :: np_diff rest
  | _ => []
  end.

(** Whether [x] falls in the bin from [lo] to [hi]: the bins are half-open,
    except the last one, which includes its right edge. *)
Definition in_bin (lo hi : Q) (last : bool) (x : Q) : bool :=
  Qle_bool lo x && (if last then Qle_bool x hi else negb (Qle_bool hi x)).

Fixpoint bin_counts (data edges : list Q) : list nat :=
  match edges with
  | lo :: rest =>
      match rest with
      | hi :: rest' =>
          List.length
            (filter (in_bin lo hi match rest' with [] => true | _ => false end)
               data)
          :: bin_counts data rest
      | [] => []
      end
  | [] => []
  end.

Fixpoint increasing (edges : list Q) : bool :=
  match edges with
  | x :: rest =>
      match rest with
      | y :: _ => Qle_bool x y && increasing rest
      | [] => true
      end
  | [] => true
  end.

(** [np.histogram(data, bins=edges, density=True)[0]]: the counts [n],
    then [n / np.diff(edges) / n.sum()]. *)
Definition np_histogram (data edges : list Q) : result (list npfloat) :=
  if increasing edges then
    let n := bin_counts data edges in
    let db := np_diff edges in
    let total := list_sum n in
    Ok (zip_with
          (fun n_i db_i =>
             fdiv (fdiv (Num (INR n_i)) (Num (Q2R db_i))) (Num (INR total)))
          n db)
  else Raise ValueError.

Definition epsilon : R := (/ 10 ^ 10)%R.

(** 10 bins from 0 to 1 *)
Definition bins : list Q := np_linspace 0 1 11.

(** The body of the [try] block. *)
Definition kl_divergence (current_data baseline_data : list Q)
  : result npfloat :=
  match np_histogram current_data bins with
  | Raise e => Raise e
  | Ok current_hist =>
      match np_histogram baseline_data bins with
      | Raise e => Raise e
      | Ok baseline_hist =>
          let current_hist := map (fun v => fadd v (Num epsilon)) current_hist in
          let baseline_hist := map (fun v => fadd v (Num epsilon)) baseline_hist in
          let current_total := np_sum current_hist in
          let current_hist := map (fun v => fdiv v current_total) current_hist in
          let baseline_total := np_sum baseline_hist in
          let baseline_hist := map (fun v => fdiv v baseline_total) baseline_hist in
          let kl_div :=
            np_sum (zip_with fmul current_hist
                      (map flog (zip_with fdiv current_hist baseline_hist))) in
          Ok kl_div
      end
  end.

(** The value returned, and what is logged. *)
Definition _calculate_distribution_drift (current_data baseline_data : list Q)
  : npfloat * list Collector.event :=
  match kl_divergence current_data baseline_data with
  | Ok kl_div => (kl_div, [])
  | Raise e =>
      (Num 0,
       [Collector.Logged Collector.ERROR "Error calculating drift"
          (Collector.Cause e)])
  end.

(** Arrays of NaN, and numbers by sign. *)
Definition all_nan (a : list npfloat) : Prop := Forall (eq NaN) a.

Definition positive (v : npfloat) : Prop := exists r, v = Num r /\ (0 < r)%R.

Definition nonnegative (v : npfloat) : Prop :=
  exists r, v = Num r /\ (0 <= r)%R.

End Drift.

(* ================================================================== *)
(** * Reference definitions used in the statements *)

Module Spec.

Import Py Collector.
Open Scope string_scope.

(** The last [n] items of a list. *)
Definition lastn {A} (n : nat) (l : list A) : list A :=
  skipn (List.length l - n) l.

(** The observation that reports an anomaly. *)
Definition anomaly (kind severity : string) (now : Z) : MetricData :=
  {| name := "business_anomaly_detected";
     value := PyInt 1;
     unit := "Count";
     timestamp := now;
     dimensions := [("AnomalyType", PyStr kind); ("Severity", PyStr severity)] |}.

(** The buffer after the observations of [l] are recorded in turn. *)
Definition record_all (l : list MetricData) (b : dict (list MetricData))
  : dict (list MetricData) :=
  fold_left (fun b m => buffer_append m b) l b.

(** The exception of [float()] on the first of [features] that
    [claim_data] holds with a value [float()] rejects. *)
Fixpoint first_float_error (float_of_string : string -> option pyfloat)
  (claim_data : dict pyval) (features : list string) : option exn :=
  match features with
  | [] => None
  | f :: rest =>
      match dict_get f claim_data with
      | Some v =>
          match py_float float_of_string v with
          | Ok _ => first_float_error float_of_string claim_data rest
          | Raise e => Some e
          end
      | None => first_float_error float_of_string claim_data rest
      end
  end.

(** The observations of the features of [features] that [claim_data]
    holds, as long as [float()] accepts their values. *)
Fixpoint feature_observations (float_of_string : string -> option pyfloat)
  (claim_data : dict pyval) (now : Z) (features : list string)
  : list MetricData :=
  match features with
  | [] => []
  | f :: rest =>
      match dict_get f claim_data with
      | Some v =>
          match py_float float_of_string v with
          | Ok x =>
              mkMetricData ("feature_" ++ f) (PyFloat x) "None" now
                [("FeatureType", PyStr "input")]
              :: feature_observations float_of_string claim_data now rest
          | Raise _ => []
          end
      | None => feature_observations float_of_string claim_data now rest
      end
  end.

(** The batches of one namespace: consecutive runs of [batch_limit]. *)
Definition batches (metrics : list MetricDatum) : list (list MetricDatum) :=
  map (fun i => slice i (i + batch_limit) metrics)
    (py_range 0 (List.length metrics) batch_limit).

(** The calls of the sink a flush sets out to make, in order. *)
Definition plan_of (namespaced_metrics : dict (list MetricDatum))
  : list (string * list MetricDatum) :=
  flat_map (fun '(namespace, metrics) => map (pair namespace) (batches metrics))
    namespaced_metrics.

Definition flush_plan (buffer : dict (list MetricData))
  : list (string * list MetricDatum) :=
  plan_of (group_by_namespace buffer).

Definition put_event (call : string * list MetricDatum) : event :=
  PutMetricData (fst call) (snd call).


(** The sink's part in a flush: the trace once the calls of [plan] were
    made in turn, up to and including the first one the sink rejects, and
    the exception of that call if there is one. *)
Fixpoint deliver (sink : list event -> string -> list MetricDatum -> option exn)
  (t : list event) (plan : list (string * list MetricDatum))
  : list event * option exn :=
  match plan with
  | [] => (t, None)
  | call :: rest =>
      let t' := (t ++ [put_event call])%list in
      match sink t (fst call) (snd call) with
      | None => deliver sink t' rest
      | Some e => (t', Some e)
      end
  end.

(** The calls of the sink recorded in a trace. *)
Definition puts (t : list event) : list (string * list MetricDatum) :=
  flat_map (fun e =>
              match e with
              | PutMetricData ns batch => [(ns, batch)]
              | Logged _ _ _ => []
              end) t.

(** The observations of a buffer in the order a flush visits them. *)
Definition observations (buffer : dict (list MetricData)) : list MetricData :=
  List.concat (values buffer).

(** The observations of [l] that carry the metric name [n]. *)
Definition named (n : string) (l : list MetricData) : list MetricData :=
  filter (fun m => String.eqb (name m) n) l.


(** Whether the start of a window of [hours] hours that ends at the
    instant [now] is a date: the period is a [timedelta] and the start
    falls within the years 1 to 9999. *)
Definition window_starts_at_a_date (hours now : Z) : bool :=
  let days := (hours * microseconds_per_hour / microseconds_per_day)%Z in
  let start := (now - hours * microseconds_per_hour)%Z in
  ((- max_delta_days <=? days) && (days <=? max_delta_days)
   && (0 <=? start) && (start <=? datetime_max))%Z.

(** Midnight of 3 November 2026, a reading of the clock. *)
Definition november_2026 : Z := (739923 - 1) * microseconds_per_day.

(** ** Concrete inputs *)

Definition fresh : world := {| self := init "us-east-1"; trace := [] |}.

(** A sink that is down, and one that accepts everything. *)
Definition sink_down : list event -> string -> list MetricDatum -> option exn :=
  fun _ _ _ => Some (ClientError "EndpointConnectionError").

Definition sink_up : list event -> string -> list MetricDatum -> option exn :=
  fun _ _ _ => None.

Definition sample_metric (i : nat) : MetricData :=
  mkMetricData "api_request_duration" (PyInt (Z.of_nat i)) "Seconds" 0
    [("Endpoint", PyStr "/predict")].

(** A collector that holds [n] observations of one metric. *)
Definition loaded (n : nat) : world :=
  {| self := set_metric_buffer
               [("api_request_duration", map sample_metric (seq 0 n))]
               (init "us-east-1");
     trace := [] |}.

Close Scope string_scope.

End Spec.

(* ================================================================== *)
(** * The other operations of the collector *)

Module Operations.

Import Py Collector.
Open Scope string_scope.
Open Scope py_scope.

(** ** API calls *)

(** [now] is the reading of [datetime.now()] at entry. *)
Definition collect_api_metrics (endpoint method : string) (status_code : Z)
  (response_time : pyfloat) (request_size response_size : Z) (now : Z)
  : M NoneType :=
  let timestamp := now in
  _record_metric "api_request_duration" (PyFloat response_time) "Seconds"
    [("Endpoint", PyStr endpoint);
     ("Method", PyStr method);
     ("StatusCode", PyStr (str_of_int status_code))]
    timestamp ;;
  _record_metric "api_request_size" (PyInt request_size) "Bytes"
    [("Endpoint", PyStr endpoint);
     ("Method", PyStr method)]
    timestamp ;;
  _record_metric "api_response_size" (PyInt response_size) "Bytes"
    [("Endpoint", PyStr endpoint);
     ("StatusCode", PyStr (str_of_int status_code))]
    timestamp ;;
  (if (400 <=? status_code)%Z then
     _record_metric "api_errors_total" (PyInt 1) "Count"
       [("Endpoint", PyStr endpoint);
        ("StatusCode", PyStr (str_of_int status_code));
        ("ErrorType",
         PyStr (if (status_code <? 500)%Z then "client" else "server"))]
       timestamp
   else ret tt).

(** ** Security events *)

Definition _get_ip_region (ip_address : string) : string := "unknown".

(** [s[:n]] on a string of one-byte characters *)
Definition str_prefix (n : nat) (s : string) : string := substring 0 n s.

Definition collect_security_metrics (event_type source_ip user_agent
  status : string) (now : Z) : M NoneType :=
  let timestamp := now in
  _record_metric "security_events_total" (PyInt 1) "Count"
    [("EventType", PyStr event_type);
     ("Status", PyStr status);
     ("SourceRegion", PyStr (_get_ip_region source_ip))]
    timestamp ;;
  (if String.eqb event_type "authentication" && String.eqb status "failed"
   then
     _record_metric "failed_authentication_attempts" (PyInt 1) "Count"
       [("SourceIP", PyStr (str_prefix 8 source_ip ++ "xxx"))]
       timestamp
   else ret tt).

(** ** Drift check and alert *)

(** [self.business_metrics[series]]: indexing the [defaultdict] creates a
    missing series; the deque is returned. *)
Definition business_series (series : string) : M (list pyval) :=
  update (fun c => set_business_metrics
    (dict_update series (fun d => d) [] (business_metrics c)) c) ;;
  read (fun c => get (business_metrics c) series []).

(** [l[-n:]]: the last [n] items, and all of [l] when [n] is 0. *)
Definition last_slice {A} (n : nat) (l : list A) : list A :=
  if (n =? 0)%nat then l else Spec.lastn n l.

Definition drift_threshold : pyfloat := FFin 0.15.

Section DriftCheck.

(** The alert channel [sns.publish(TopicArn, Subject, Message)], the
    environment of the process, and the text of the alert, an f-string
    over the drift type, the score and a reading of the clock. *)
Variable sns_publish : string -> string -> string -> M NoneType.
Variable environ : dict string.
Variable alert_message : string -> pyfloat -> Z -> string.

(** The float [_calculate_distribution_drift] returns on two windows of
    recorded values, with what it logs; the estimator itself is [Drift],
    over the reals. *)
Variable drift_score : list pyval -> list pyval -> pyfloat * list event.

(** [now] is the reading of [datetime.now()] inside the message. *)
Definition _send_drift_alert (drift_type : string) (drift_score : pyfloat)
  (now : Z) : M NoneType :=
  try_except
    ((* sns = boto3.client('sns', region_name=self.region) *)
     load_global "boto3" ;;
     let message := alert_message drift_type drift_score now in
     load_global "os" ;;
     match dict_get "SNS_TOPIC_ARN" environ with
     | Some topic_arn =>
         if String.eqb topic_arn "" then ret tt
         else sns_publish topic_arn ("Model Drift Alert: " ++ drift_type)
                message
     | None => ret tt
     end)
    (fun e => log ERROR "Failed to send drift alert" (Cause e)).

(** The call [self._calculate_distribution_drift(...)]. *)
Definition call_drift (current_data baseline_data : list pyval)
  : M pyfloat :=
  fun w =>
    let '(score, logged) := drift_score current_data baseline_data in
    (Ok score, {| self := self w; trace := (trace w ++ logged)%list |}).

(** [now] is the reading of [datetime.now()] before recording, [now'] and
    [now''] are the readings inside the two alerts. *)
Definition collect_model_drift_metrics (now now' now'' : Z) : M NoneType :=
  fraud_probabilities <- business_series "fraud_probabilities" ;;
  window <- read drift_window_size ;;
  if (List.length fraud_probabilities <? window)%nat then
    log INFO "Insufficient data for drift detection" NoDetail
  else
    fraud_probabilities <- business_series "fraud_probabilities" ;;
    let current_probs := last_slice window fraud_probabilities in
    confidences <- business_series "confidences" ;;
    let current_confidences := last_slice window confidences in
    baseline <- read baseline_metrics ;;
    prob_drift <-
      call_drift current_probs
        (get baseline "fraud_probabilities" (firstn 50 current_probs)) ;;
    baseline <- read baseline_metrics ;;
    confidence_drift <-
      call_drift current_confidences
        (get baseline "confidences" (firstn 50 current_confidences)) ;;
    let timestamp := now in
    _record_metric "prediction_drift_score" (PyFloat prob_drift) "None"
      [("DriftType", PyStr "FraudProbability")] timestamp ;;
    _record_metric "confidence_drift_score" (PyFloat confidence_drift) "None"
      [("DriftType", PyStr "ModelConfidence")] timestamp ;;
    (if float_lt drift_threshold prob_drift
     then _send_drift_alert "Fraud Probability" prob_drift now'
     else ret tt) ;;
    (if float_lt drift_threshold confidence_drift
     then _send_drift_alert "Model Confidence" confidence_drift now''
     else ret tt).

End DriftCheck.

(** ** Reference definitions for the statements *)

(** The observations one API call records. *)
Definition api_observations (endpoint method : string) (status_code : Z)
  (response_time : pyfloat) (request_size response_size : Z) (now : Z)
  : list MetricData :=
  ([mkMetricData "api_request_duration" (PyFloat response_time) "Seconds" now
      [("Endpoint", PyStr endpoint); ("Method", PyStr method);
       ("StatusCode", PyStr (str_of_int status_code))];
    mkMetricData "api_request_size" (PyInt request_size) "Bytes" now
      [("Endpoint", PyStr endpoint); ("Method", PyStr method)];
    mkMetricData "api_response_size" (PyInt response_size) "Bytes" now
      [("Endpoint", PyStr endpoint);
       ("StatusCode", PyStr (str_of_int status_code))]]
   ++ (if (status_code <? 400)%Z then []
       else [mkMetricData "api_errors_total" (PyInt 1) "Count" now
               [("Endpoint", PyStr endpoint);
                ("StatusCode", PyStr (str_of_int status_code));
                ("ErrorType",
                 PyStr (if (status_code <? 500)%Z then "client"
                        else "server"))]]))%list.

Definition security_event (event_type status : string) (now : Z)
  : MetricData :=
  mkMetricData "security_events_total" (PyInt 1) "Count" now
    [("EventType", PyStr event_type); ("Status", PyStr status);
     ("SourceRegion", PyStr "unknown")].

Definition failed_authentication (redacted_ip : string) (now : Z)
  : MetricData :=
  mkMetricData "failed_authentication_attempts" (PyInt 1) "Count" now
    [("SourceIP", PyStr redacted_ip)].

Definition drift_observations (prob_drift confidence_drift : pyfloat)
  (now : Z) : list MetricData :=
  [mkMetricData "prediction_drift_score" (PyFloat prob_drift) "None" now
     [("DriftType", PyStr "FraudProbability")];
   mkMetricData "confidence_drift_score" (PyFloat confidence_drift) "None" now
     [("DriftType", PyStr "ModelConfidence")]].

(** What a drift alert leaves in the log. *)
Definition alert_failure : event :=
  Logged ERROR "Failed to send drift alert" (Cause (NameError "os")).

(** A number of recorded values that is within [0, 1]. *)
Definition in_unit_interval (x : Q) : Prop := (0 <= x /\ x <= 1)%Q.

(** An alert channel that accepts everything, a message without text, and
    a drift estimator that answers 0.2 on all windows. *)
Definition channel_up : string -> string -> string -> M NoneType :=
  fun _ _ _ => ret tt.

Definition no_text : string -> pyfloat -> Z -> string := fun _ _ _ => "".

Definition drift_of_a_fifth : list pyval -> list pyval -> pyfloat * list event :=
  fun _ _ => (FFin 0.2, []).

(** A collector after [n] predictions of probability 0.5 and confidence
    0.9, its buffer flushed. *)
Definition warmed (n : nat) : world :=
  {| self := set_business_metrics
               [("fraud_probabilities", repeat (PyFloat (FFin 0.5)) n);
                ("confidences", repeat (PyFloat (FFin 0.9)) n)]
               (init "us-east-1");
     trace := [] |}.

(** A sink that accepts a first call and rejects every later one. *)
Definition sink_one_call : list event -> string -> list MetricDatum -> option exn :=
  fun t _ _ =>
    match Spec.puts t with
    | [] => None
    | _ :: _ => Some (ClientError "Throttling")
    end.

Close Scope py_scope.
Close Scope string_scope.

End Operations.

(* ================================================================== *)
(** * Properties *)

(** ** Dictionaries *)

Section DictFacts.

Import Py.
Context {V : Type}.
Implicit Types (d : dict V) (k : string).

Lemma dict_get_update_same k (f : V -> V) fresh d :
  dict_get k (dict_update k f fresh d)
  = Some (f (match dict_get k d with Some v => v | None => fresh end)).
Proof.
  induction d as [|[k' v] d IH]; simpl.
  - now rewrite String.eqb_refl.
  - destruct (String.eqb k k') eqn:E; simpl; rewrite E; auto.
Qed.

Lemma dict_get_update_other k k' (f : V -> V) fresh d :
  k <> k' ->
  dict_get k' (dict_update k f fresh d) = dict_get k' d.
Proof.
  intros Hne. induction d as [|[k0 v] d IH]; simpl.
  - destruct (String.eqb k' k) eqn:E; auto.
    apply String.eqb_eq in E. congruence.
  - destruct (String.eqb k k0) eqn:E; simpl.
    + apply String.eqb_eq in E. subst k0.
      destruct (String.eqb k' k) eqn:E'; auto.
      apply String.eqb_eq in E'. congruence.
    + now rewrite IH.
Qed.



End DictFacts.

(** ** The namespace classifier *)

Section NamespaceFacts.

Import Namespace.

(** [first_match] returns the namespace of the earliest rule that
    applies, and the default when none does. *)
Lemma first_match_earliest (rs : list rule) (otherwise n : string) :
  (exists before applies ns after,
      rs = before ++ (applies, ns) :: after
      /\ Forall (fun r => fst r n = false) before
      /\ applies n = true
      /\ first_match rs otherwise n = ns)
  \/ (Forall (fun r => fst r n = false) rs
      /\ first_match rs otherwise n = otherwise).
Proof.
  induction rs as [|[applies ns] rs IH]; simpl.
  - right. split; [constructor | reflexivity].
  - destruct (applies n) eqn:E.
    + left. exists [], applies, ns, rs. repeat split; auto.
    + destruct IH as [(before & a & ns' & after & -> & Hb & Ha & Hr)|[Hall Hr]].
      * left. exists ((applies, ns) :: before), a, ns', after.
        repeat split; auto.
      * right. split; auto.
Qed.

Lemma classifier_is_first_match (n : string) :
  _get_metric_namespace n = first_match rules Custom n.
Proof.
  unfold _get_metric_namespace, rules, first_match.
  repeat match goal with |- context [if ?b then _ else _] => destruct b end;
    reflexivity.
Qed.

(** C5. The classifier is a total function of the metric name that
    evaluates the rule table [api_] -> API, [prediction_]/[fraud_] -> ML,
    [business_]/[claims_] -> Business, [cost_] prefix or [cost] substring
    -> Cost, [security_] -> Security, otherwise Custom, by first match:
    for every name its result is the namespace of the earliest rule
    that applies (Custom when none applies); [cost_per_prediction] is in
    Cost and [api_cost_tracker] is in API. *)
Theorem classifier_first_match_wins :
  (forall n,
      (exists before applies ns after,
          rules = before ++ (applies, ns) :: after
          /\ Forall (fun r => fst r n = false) before
          /\ applies n = true
          /\ _get_metric_namespace n = ns)
      \/ (Forall (fun r => fst r n = false) rules
          /\ _get_metric_namespace n = Custom))
  /\ _get_metric_namespace "cost_per_prediction" = Cost
  /\ _get_metric_namespace "api_cost_tracker" = API.
Proof.
  split; [|split; reflexivity].
  intros n. rewrite classifier_is_first_match.
  apply first_match_earliest.
Qed.

End NamespaceFacts.

(** ** The rolling series *)

Section DequeFacts.

Context {A : Type}.
Implicit Types (d xs : list A).

Lemma lastn_all n d : List.length d <= n -> Spec.lastn n d = d.
Proof.
  intros H. unfold Spec.lastn.
  replace (List.length d - n) with 0 by lia. reflexivity.
Qed.

Lemma lastn_length n d : List.length (Spec.lastn n d) = Nat.min n (List.length d).
Proof. unfold Spec.lastn. rewrite length_skipn. lia. Qed.

Lemma lastn_tl n d :
  n < List.length d -> Spec.lastn n (tl d) = Spec.lastn n d.
Proof.
  unfold Spec.lastn. destruct d as [|a d]; cbn [tl List.length]; intros H; [lia|].
  replace (S (List.length d) - n) with (S (List.length d - n)) by lia.
  reflexivity.
Qed.

Lemma append_lastn n x d :
  List.length d <= n -> Deque.append n x d = Spec.lastn n (d ++ [x]).
Proof.
  intros H. unfold Deque.append.
  destruct (n <? List.length (d ++ [x])) eqn:E.
  - apply Nat.ltb_lt in E.
    rewrite <- lastn_tl by exact E. symmetry. apply lastn_all.
    rewrite length_app in E. simpl in E.
    destruct d; simpl in *; [lia|]. rewrite length_app. simpl. lia.
  - apply Nat.ltb_ge in E. symmetry. now apply lastn_all.
Qed.

Lemma append_length_le n x d :
  List.length d <= n -> List.length (Deque.append n x d) <= n.
Proof.
  intros H. rewrite append_lastn by assumption. rewrite lastn_length. lia.
Qed.

Lemma lastn_app_lastn n d xs :
  Spec.lastn n (Spec.lastn n d ++ xs) = Spec.lastn n (d ++ xs).
Proof.
  destruct (Nat.le_gt_cases (List.length d) n) as [H|H].
  - now rewrite (@lastn_all n d H).
  - unfold Spec.lastn at 1 3. rewrite !length_app, lastn_length.
    unfold Spec.lastn.
    replace (Nat.min n (List.length d) + List.length xs - n)
      with (List.length xs) by lia.
    replace (List.length d + List.length xs - n)
      with (List.length xs + (List.length d - n)) by lia.
    rewrite <- skipn_skipn. f_equal.
    rewrite skipn_app.
    replace (List.length d - n - List.length d) with 0 by lia.
    reflexivity.
Qed.

Lemma extend_lastn n xs : forall d,
  List.length d <= n -> Deque.extend n xs d = Spec.lastn n (d ++ xs).
Proof.
  induction xs as [|x xs IH]; intros d H.
  - simpl. rewrite app_nil_r. symmetry. now apply lastn_all.
  - change (Deque.extend n (x :: xs) d)
      with (Deque.extend n xs (Deque.append n x d)).
    rewrite IH by now apply append_length_le.
    rewrite append_lastn by assumption.
    rewrite lastn_app_lastn, <- app_assoc. reflexivity.
Qed.

End DequeFacts.

(** ** Recording, and the per-prediction operation *)

Section CollectorFacts.

Import Py Collector Spec.
Open Scope string_scope.

Lemma set_metric_buffer_id (c : MetricsCollector) :
  set_metric_buffer (metric_buffer c) c = c.
Proof. now destruct c. Qed.

Lemma world_eta (w : world) : {| self := self w; trace := trace w |} = w.
Proof. now destruct w. Qed.

Lemma first_float_error_none parse claim_data features :
  first_float_error parse claim_data features = None
  <-> (forall f v, In f features -> dict_get f claim_data = Some v ->
                   is_ok (py_float parse v) = true).
Proof.
  induction features as [|f fs IH]; simpl.
  - split; [intros _ ? ? [] | reflexivity].
  - destruct (dict_get f claim_data) as [v|] eqn:G.
    + destruct (py_float parse v) as [x|e] eqn:F.
      * rewrite IH. split.
        -- intros H f' v' [<-|Hin] G'; [|eauto].
           rewrite G in G'. injection G' as <-. now rewrite F.
        -- intros H f' v' Hin. apply H. now right.
      * split; [discriminate|].
        intros H. specialize (H f v (or_introl eq_refl) G).
        rewrite F in H. discriminate.
    + rewrite IH. split.
      * intros H f' v' [<-|Hin] G'; [congruence | eauto].
      * intros H f' v' Hin. apply H. now right.
Qed.

(** The loop over the monitored features, for any list of features: it
    records the features it reaches, logs nothing, and stops at the
    first value [float()] rejects, with the exception of [float()]. *)
Lemma feature_loop parse claim_data now features : forall w,
  for_each features (fun feature =>
    if contains_key feature claim_data then
      bind (lift (getitem claim_data feature)) (fun item =>
      bind (lift (py_float parse item)) (fun v =>
      _record_metric ("feature_" ++ feature) (PyFloat v) "None"
        [("FeatureType", PyStr "input")] now))
    else ret tt) w
  = (match first_float_error parse claim_data features with
     | None => Ok tt
     | Some e => Raise e
     end,
     {| self := set_metric_buffer
                  (record_all (feature_observations parse claim_data now features)
                     (metric_buffer (self w)))
                  (self w);
        trace := trace w |}).
Proof.
  induction features as [|f fs IH]; intros w.
  - simpl. unfold ret. now rewrite set_metric_buffer_id, world_eta.
  - cbn [for_each first_float_error feature_observations].
    unfold bind at 1, contains_key, getitem.
    destruct (dict_get f claim_data) as [v|] eqn:G.
    + unfold bind at 1, lift at 1. unfold bind at 1, lift at 1.
      destruct (py_float parse v) as [x|e] eqn:F.
      * unfold _record_metric, update. rewrite IH. destruct w as [[]]. reflexivity.
      * simpl. now rewrite set_metric_buffer_id, world_eta.
    + unfold ret at 1. apply IH.
Qed.

Lemma bind_update {B} f (k : NoneType -> M B) w :
  bind (update f) k w = k tt {| self := f (self w); trace := trace w |}.
Proof. reflexivity. Qed.

Lemma bind_record {B} n v u d t (k : NoneType -> M B) w :
  bind (_record_metric n v u d t) k w
  = k tt {| self := set_metric_buffer
                      (buffer_append (mkMetricData n v u t d)
                         (metric_buffer (self w))) (self w);
            trace := trace w |}.
Proof. reflexivity. Qed.

(** What one call of [collect_prediction_metrics] does to the collector,
    whatever its outcome. *)
Lemma collect_prediction_metrics_run parse prediction_data processing_time
  claim_data now w :
  collect_prediction_metrics parse prediction_data processing_time
    claim_data now w
  = (match first_float_error parse claim_data key_features with
     | None => Ok tt
     | Some e => Raise e
     end,
     {| self :=
          {| region := region (self w);
             metric_buffer :=
               record_all
                 ([mkMetricData "prediction_processing_time" processing_time
                     "Milliseconds" now
                     [("RiskLevel", get prediction_data "risk_level" (PyStr "UNKNOWN"));
                      ("ModelVersion", get prediction_data "model_version" (PyStr "1.0"))];
                   mkMetricData "fraud_probability"
                     (get prediction_data "fraud_probability" (PyInt 0)) "None" now
                     [("RiskLevel", get prediction_data "risk_level" (PyStr "UNKNOWN"))];
                   mkMetricData "model_confidence"
                     (get prediction_data "confidence" (PyInt 0)) "None" now
                     [("ModelVersion", get prediction_data "model_version" (PyStr "1.0"))]]
                  ++ feature_observations parse claim_data now key_features)%list
                 (metric_buffer (self w));
             business_metrics :=
               business_append "confidences"
                 (get prediction_data "confidence" (PyInt 0))
                 (business_append "fraud_probabilities"
                    (get prediction_data "fraud_probability" (PyInt 0))
                    (business_metrics (self w)));
             baseline_metrics := baseline_metrics (self w);
             drift_window_size := drift_window_size (self w) |};
        trace := trace w |}).
Proof.
  unfold collect_prediction_metrics, _collect_feature_metrics.
  rewrite !bind_record, !bind_update, feature_loop.
  unfold record_all. rewrite fold_left_app.
  destruct w as [[]]. reflexivity.
Qed.

(** C2, as the code has it. [collect_prediction_metrics] has no handler
    around the coercion of the feature values: it returns without
    raising exactly when [float()] accepts the value of every monitored
    feature that [claim_data] holds; otherwise the exception [float()]
    raises on the first rejected value reaches the caller, and nothing
    is logged in either case. *)
Theorem collect_prediction_metrics_outcome parse prediction_data
  processing_time claim_data now w :
  let run := collect_prediction_metrics parse prediction_data
               processing_time claim_data now w in
  fst run = match first_float_error parse claim_data key_features with
            | None => Ok tt
            | Some e => Raise e
            end
  /\ (fst run = Ok tt
      <-> forall f v, In f key_features -> dict_get f claim_data = Some v ->
                      is_ok (py_float parse v) = true)
  /\ trace (snd run) = trace w.
Proof.
  cbv zeta. rewrite collect_prediction_metrics_run. cbn [fst snd trace].
  split; [reflexivity|]. split; [|reflexivity].
  rewrite <- first_float_error_none.
  destruct (first_float_error parse claim_data key_features);
    split; congruence.
Qed.

(** C2 as stated fails: a claim whose [incident_severity] is a label
    makes [collect_prediction_metrics] raise [ValueError] to its caller,
    after the three prediction metrics were buffered, with nothing
    logged. *)
Lemma collect_prediction_metrics_raises :
  let run := collect_prediction_metrics ascii_float_of_string
               [("fraud_probability", PyFloat (FFin 0.9))]
               (PyFloat (FFin 12.5))
               [("age", PyInt 41); ("incident_severity", PyStr "Major Damage")]
               0 fresh in
  fst run = Raise ValueError
  /\ trace (snd run) = []
  /\ map fst (metric_buffer (self (snd run)))
     = ["prediction_processing_time"; "fraud_probability";
        "model_confidence"; "feature_age"].
Proof. vm_compute. repeat split. Qed.

(** ** The rolling series *)

(** C3, as the code has it. The series [fraud_probabilities] and
    [confidences] are deques of capacity 1000 (100 is the length of the
    window the drift check reads from their end): every recorded
    prediction appends to both through the bounded append, a series
    within the capacity stays within it under any insertions and then
    holds the most recent 1000 values of what it held and what was
    inserted, and inserting 1000+50 values leaves exactly the 1000 most
    recent of them, oldest first. *)
Theorem rolling_series_capacity (d xs : list pyval) :
  List.length d <= business_maxlen ->
  List.length (Deque.extend business_maxlen xs d) <= business_maxlen
  /\ Deque.extend business_maxlen xs d = lastn business_maxlen (d ++ xs)
  /\ (List.length xs = business_maxlen + 50 ->
      Deque.extend business_maxlen xs d = skipn 50 xs
      /\ List.length (Deque.extend business_maxlen xs d) = business_maxlen)
  /\ (forall parse prediction_data processing_time claim_data now w,
        business_metrics (self (snd
          (collect_prediction_metrics parse prediction_data processing_time
             claim_data now w)))
        = dict_update "confidences"
            (Deque.append business_maxlen
               (get prediction_data "confidence" (PyInt 0))) []
            (dict_update "fraud_probabilities"
               (Deque.append business_maxlen
                  (get prediction_data "fraud_probability" (PyInt 0))) []
               (business_metrics (self w))))
  /\ business_metrics (init "us-east-1") = [].
Proof.
  intros Hd.
  assert (E : Deque.extend business_maxlen xs d
              = lastn business_maxlen (d ++ xs)) by now apply extend_lastn.
  split; [|split; [exact E|split; [|split]]].
  - rewrite E, lastn_length. lia.
  - intros Hxs. rewrite E. unfold lastn.
    rewrite length_app, Hxs.
    replace (List.length d + (business_maxlen + 50) - business_maxlen)
      with (List.length d + 50) by lia.
    rewrite skipn_app, skipn_all2 by lia.
    replace (List.length d + 50 - List.length d) with 50 by lia.
    cbn [app]. split; [reflexivity|]. rewrite length_skipn. lia.
  - intros. now rewrite collect_prediction_metrics_run.
  - reflexivity.
Qed.

Lemma rolling_series_capacity_witness :
  let xs := map (fun i => PyInt (Z.of_nat i)) (seq 0 1050) in
  let d := [PyFloat (FFin 0.5)] in
  Deque.extend business_maxlen xs d = skipn 50 xs
  /\ List.length (Deque.extend business_maxlen xs d) = business_maxlen.
Proof.
  refine (proj1 (proj2 (proj2
            (@rolling_series_capacity [PyFloat (FFin 0.5)] _ _))) _).
  - apply Nat.leb_le. reflexivity.
  - vm_compute. reflexivity.
Defined.

(** C3 as stated fails: after 150 insertions into the empty series of a
    new collector, the series holds all 150 values, more than 100. *)
Lemma rolling_series_holds_150 :
  List.length
    (get (fold_left (fun b x => business_append "fraud_probabilities" x b)
            (repeat (PyFloat (FFin 0.5)) 150)
            (business_metrics (init "us-east-1")))
       "fraud_probabilities" [])
  = 150
  /\ drift_window_size (init "us-east-1") = 100.
Proof. vm_compute. split; reflexivity. Qed.

Close Scope string_scope.

End CollectorFacts.

(** ** Anomalies, business aggregates and cost *)

Section AggregateFacts.

Import Py Collector Spec.
Open Scope string_scope.

Lemma float_range_finite (lo hi q : Q) :
  float_le (FFin lo) (FFin q) && float_le (FFin q) (FFin hi) = true
  <-> (lo <= q /\ q <= hi)%Q.
Proof. cbn [float_le]. now rewrite andb_true_iff, !Qle_bool_iff. Qed.

Lemma float_lt_finite (a b : Q) :
  float_lt (FFin a) (FFin b) = true <-> (a < b)%Q.
Proof.
  cbn [float_lt]. rewrite negb_true_iff. split; intros H.
  - apply Qnot_le_lt. intros H'. apply Qle_bool_iff in H'. congruence.
  - destruct (Qle_bool b a) eqn:E; [|reflexivity].
    apply Qle_bool_iff in E. exfalso. exact (Qlt_not_le _ _ H E).
Qed.

(** C6. For every fraud rate, average fraud probability and average
    confidence, the anomaly check returns normally, logs nothing and
    appends to the buffer the observations [recorded], each a
    [business_anomaly_detected] of value 1 and unit Count: the FraudRate
    anomaly exactly when the fraud rate is not within [0.05, 0.25], with
    severity HIGH when the rate exceeds 0.4 and MEDIUM otherwise, and
    the LowConfidence anomaly of severity MEDIUM exactly when the
    average confidence is below 0.6. The two rules do not depend on one
    another, both fire when both conditions hold, and the average fraud
    probability changes nothing. *)
Theorem anomaly_rules (fraud_rate avg_fraud_prob avg_confidence : pyfloat)
  (now : Z) :
  let outside := negb (float_le (FFin 0.05) fraud_rate
                       && float_le fraud_rate (FFin 0.25)) in
  let high := float_lt (FFin 0.4) fraud_rate in
  let low := float_lt avg_confidence (FFin 0.6) in
  exists recorded,
    (forall w,
        _check_business_anomalies fraud_rate avg_fraud_prob avg_confidence
          now w
        = (Ok tt,
           {| self := set_metric_buffer
                        (record_all recorded (metric_buffer (self w)))
                        (self w);
              trace := trace w |}))
    /\ recorded
       = ((if outside
           then [anomaly "FraudRate" (if high then "HIGH" else "MEDIUM") now]
           else [])
          ++ (if low then [anomaly "LowConfidence" "MEDIUM" now] else []))%list
    /\ (In (anomaly "FraudRate" "HIGH" now) recorded
        <-> outside = true /\ high = true)
    /\ (In (anomaly "FraudRate" "MEDIUM" now) recorded
        <-> outside = true /\ high = false)
    /\ (In (anomaly "LowConfidence" "MEDIUM" now) recorded <-> low = true)
    /\ (forall p w,
           _check_business_anomalies fraud_rate p avg_confidence now w
           = _check_business_anomalies fraud_rate avg_fraud_prob
               avg_confidence now w)
    /\ (forall q : Q,
           (float_le (FFin 0.05) (FFin q) && float_le (FFin q) (FFin 0.25)
            = true <-> (0.05 <= q /\ q <= 0.25)%Q)
           /\ (float_lt (FFin 0.4) (FFin q) = true <-> (0.4 < q)%Q)
           /\ (float_lt (FFin q) (FFin 0.6) = true <-> (q < 0.6)%Q)).
Proof.
  cbv zeta. eexists. split; [|split; [reflexivity|]].
  - intros w. unfold _check_business_anomalies. cbn [fst snd].
    destruct (negb _); destruct (float_lt avg_confidence _);
      destruct w as [[]]; reflexivity.
  - split; [|split; [|split; [|split]]].
    + destruct (negb _); destruct (float_lt (FFin 0.4) fraud_rate);
        destruct (float_lt avg_confidence _); cbn;
        intuition (try discriminate; try congruence).
    + destruct (negb _); destruct (float_lt (FFin 0.4) fraud_rate);
        destruct (float_lt avg_confidence _); cbn;
        intuition (try discriminate; try congruence).
    + destruct (negb _); destruct (float_lt (FFin 0.4) fraud_rate);
        destruct (float_lt avg_confidence _); cbn;
        intuition (try discriminate; try congruence).
    + reflexivity.
    + intros q. split; [apply float_range_finite|].
      split; apply float_lt_finite.
Qed.

(** The thresholds on concrete inputs: a rate of 0.5 is a HIGH anomaly, a
    rate of 0.3 a MEDIUM one, a rate of 0.15 none; a confidence of 0.5
    fires the second rule next to the first. *)
Example anomaly_thresholds :
  let buffer_after fraud_rate avg_confidence :=
    metric_buffer (self (snd (_check_business_anomalies (FFin fraud_rate)
                                (FFin 0.2) (FFin avg_confidence) 7 fresh))) in
  buffer_after 0.5%Q 0.9%Q
  = [("business_anomaly_detected", [anomaly "FraudRate" "HIGH" 7])]
  /\ buffer_after 0.3%Q 0.9%Q
     = [("business_anomaly_detected", [anomaly "FraudRate" "MEDIUM" 7])]
  /\ buffer_after 0.15%Q 0.9%Q = []
  /\ buffer_after 0.5%Q 0.5%Q
     = [("business_anomaly_detected",
         [anomaly "FraudRate" "HIGH" 7; anomaly "LowConfidence" "MEDIUM" 7])].
Proof. vm_compute. repeat split. Qed.

(** C9, as the code has it. Whatever the period and the readings of the
    clock, and whatever [np.mean] would compute,
    [collect_business_metrics] leaves the collector unchanged, buffer
    included, and reaches neither the KPI recording nor the anomaly
    check. When the start of the window is a date, the query of recent
    predictions returns the empty list without touching the collector
    and the operation returns having logged the warning of the empty
    window and nothing else; when it is not, the date arithmetic that
    precedes the query raises [OverflowError] to the caller, and nothing
    is logged. *)
Theorem collect_business_metrics_leaves_collector_unchanged
  (np_mean : list pyval -> result pyfloat)
  (time_period_hours now now' now'' : Z) (w : world) :
  let run := collect_business_metrics np_mean time_period_hours now now'
               now'' w in
  self (snd run) = self w
  /\ metric_buffer (self (snd run)) = metric_buffer (self w)
  /\ run
     = (if window_starts_at_a_date time_period_hours now
        then (Ok tt,
              {| self := self w;
                 trace := trace w
                          ++ [Logged WARNING
                                "No recent predictions found for business metrics"
                                NoDetail] |})
        else (Raise OverflowError, w))
  /\ (fst run = Ok tt
      <-> (- max_delta_days
           <= time_period_hours * microseconds_per_hour / microseconds_per_day
           <= max_delta_days
           /\ 0 <= now - time_period_hours * microseconds_per_hour
              <= datetime_max)%Z)
  /\ (forall start_time end_time w',
         _get_recent_predictions start_time end_time w' = (Ok [], w')).
Proof.
  cbv zeta.
  assert (E : collect_business_metrics np_mean time_period_hours now now'
                now'' w
              = (if window_starts_at_a_date time_period_hours now
                 then (Ok tt,
                       {| self := self w;
                          trace := trace w
                                   ++ [Logged WARNING
                                         "No recent predictions found for business metrics"
                                         NoDetail] |})
                 else (Raise OverflowError, w))).
  { unfold collect_business_metrics, window_starts_at_a_date. cbv zeta.
    unfold bind at 1, lift at 1, timedelta_hours. cbv zeta.
    destruct ((- max_delta_days <=? _)%Z && _)%bool; [|reflexivity].
    cbn [andb]. unfold bind at 1, lift at 1, datetime_sub. cbv zeta.
    destruct ((0 <=? _)%Z && _)%bool; reflexivity. }
  rewrite E.
  assert (R : window_starts_at_a_date time_period_hours now = true
              <-> (- max_delta_days
                   <= time_period_hours * microseconds_per_hour
                      / microseconds_per_day
                   <= max_delta_days
                   /\ 0 <= now - time_period_hours * microseconds_per_hour
                      <= datetime_max)%Z).
  { unfold window_starts_at_a_date. cbv zeta.
    rewrite !andb_true_iff, !Z.leb_le. tauto. }
  destruct (window_starts_at_a_date time_period_hours now);
    cbn [fst snd self]; (split; [reflexivity|]); (split; [reflexivity|]);
    (split; [reflexivity|]); (split; [|reflexivity]); split.
  - intros _. exact (proj1 R eq_refl).
  - reflexivity.
  - discriminate.
  - intros H. pose proof (proj2 R H). discriminate.
Qed.

(** C9 as stated fails: a period of 18000000 hours, more than the 2025
    years that precede the reading of the clock, makes
    [collect_business_metrics] raise [OverflowError] to its caller
    before the query; the early return of the empty window is not taken
    and its warning is not logged. *)
Lemma collect_business_metrics_raises :
  collect_business_metrics (fun _ => Ok (FFin 0)) 18000000 november_2026
    november_2026 november_2026 fresh
  = (Raise OverflowError, fresh)
  /\ (0 <=? november_2026)%Z && (november_2026 <=? datetime_max)%Z = true.
Proof. vm_compute. split; reflexivity. Qed.

(** A period of one hour, the default, takes the early return. *)
Example collect_business_metrics_one_hour :
  collect_business_metrics (fun _ => Ok (FFin 0)) 1 november_2026
    november_2026 november_2026 fresh
  = (Ok tt,
     {| self := self fresh;
        trace := [Logged WARNING
                    "No recent predictions found for business metrics"
                    NoDetail] |}).
Proof. vm_compute. reflexivity. Qed.

(** C10. Whatever the SageMaker service would answer and whatever the
    environment holds, [collect_cost_metrics] returns with the collector
    unchanged, so no cost observation is buffered: reading the name
    [os], which the module does not bind, raises [NameError] before the
    service is called, and the handler logs it and returns. *)
Theorem collect_cost_metrics_is_noop
  (describe_endpoint : string -> result EndpointInfo)
  (environ : dict string) (now : Z) (w : world) :
  collect_cost_metrics describe_endpoint environ now w
  = (Ok tt,
     {| self := self w;
        trace := trace w
                 ++ [Logged ERROR "Failed to collect cost metrics"
                       (Cause (NameError "os"))] |})
  /\ existsb (String.eqb "os") module_globals = false.
Proof. split; reflexivity. Qed.

Close Scope string_scope.

End AggregateFacts.

(** ** Batches *)

Section BatchFacts.

Import Py Collector Spec.

Lemma firstn_add {A} (a b : nat) : forall l : list A,
  firstn (a + b) l = firstn a l ++ firstn b (skipn a l).
Proof.
  induction a as [|a IH]; intros l; [reflexivity|].
  destruct l as [|x l]; simpl.
  - now rewrite firstn_nil.
  - now rewrite IH.
Qed.

Lemma chunks_concat {A} (s : nat) (l : list A) (k : nat) :
  List.concat (map (fun i => firstn s (skipn (i * s) l)) (seq 0 k))
  = firstn (k * s) l.
Proof.
  induction k as [|k IH]; [reflexivity|].
  rewrite seq_S, map_app, concat_app, IH. cbn [map List.concat plus].
  rewrite app_nil_r, <- firstn_add. f_equal. lia.
Qed.

Lemma chunk_count_covers (n : nat) : n <= (n + 19) / 20 * 20.
Proof.
  pose proof (Nat.div_mod_eq (n + 19) 20).
  pose proof (Nat.mod_upper_bound (n + 19) 20). lia.
Qed.


Lemma batches_chunks (metrics : list MetricDatum) :
  batches metrics
  = map (fun k => firstn 20 (skipn (k * 20) metrics))
      (seq 0 ((List.length metrics + 19) / 20)).
Proof.
  unfold batches, py_range, slice, batch_limit.
  rewrite map_map, Nat.sub_0_r. cbn [Nat.sub].
  apply map_ext. intros k. cbn [plus]. f_equal. lia.
Qed.

Lemma batches_concat (metrics : list MetricDatum) :
  List.concat (batches metrics) = metrics.
Proof.
  rewrite batches_chunks, chunks_concat.
  apply firstn_all2, chunk_count_covers.
Qed.










(** *** The order of the buffer and the order of recording *)






Lemma get_append n m (buffer : dict (list MetricData)) :
  get (buffer_append m buffer) n []
  = get buffer n [] ++ named n [m].
Proof.
  unfold get, buffer_append, named. cbn [filter].
  destruct (String.eqb (name m) n) eqn:E.
  - apply String.eqb_eq in E. subst n. rewrite dict_get_update_same.
    now destruct (dict_get (name m) buffer).
  - rewrite dict_get_update_other
      by (intros Heq; rewrite Heq, String.eqb_refl in E; discriminate).
    now rewrite app_nil_r.
Qed.




End BatchFacts.

(** ** The flush *)

Section FlushFacts.

Import Py Collector Spec.
Open Scope string_scope.

Variable cloudwatch : list event -> string -> list MetricDatum -> option exn.

Let put (call : string * list MetricDatum) : M NoneType :=
  put_metric_data cloudwatch (fst call) (snd call).

Lemma bind_ext {A B} (m m' : M A) (k k' : A -> M B) w :
  (forall w, m w = m' w) -> (forall a w, k a w = k' a w) ->
  bind m k w = bind m' k' w.
Proof.
  intros Hm Hk. unfold bind. rewrite Hm.
  destruct (m' w) as [[a|e] w']; [apply Hk | reflexivity].
Qed.

Lemma bind_assoc {A B C} (m : M A) (k : A -> M B) (k' : B -> M C) w :
  bind (bind m k) k' w = bind m (fun a => bind (k a) k') w.
Proof. unfold bind. destruct (m w) as [[a|e] w']; reflexivity. Qed.

Lemma for_each_app {A} (l l' : list A) body w :
  for_each (l ++ l') body w
  = bind (for_each l body) (fun _ => for_each l' body) w.
Proof.
  revert w. induction l as [|x l IH]; intros w; [reflexivity|].
  cbn [app for_each]. rewrite bind_assoc. apply bind_ext; auto.
Qed.

Lemma for_each_map {A B} (f : A -> B) (l : list A) body w :
  for_each (map f l) body w = for_each l (fun x => body (f x)) w.
Proof.
  revert w. induction l as [|x l IH]; intros w; [reflexivity|].
  cbn [map for_each]. apply bind_ext; auto.
Qed.

Lemma send_batches_plan g w :
  send_batches cloudwatch g w = for_each (plan_of g) put w.
Proof.
  unfold send_batches, plan_of. revert w.
  induction g as [|[k ms] g IH]; intros w; [reflexivity|].
  cbn [for_each flat_map]. rewrite for_each_app.
  apply bind_ext; [|intros; apply IH].
  intros w'. unfold batches. now rewrite !for_each_map.
Qed.

Lemma deliver_run plan : forall w,
  for_each plan put w
  = (match snd (deliver cloudwatch (trace w) plan) with
     | None => Ok tt
     | Some e => Raise e
     end,
     {| self := self w; trace := fst (deliver cloudwatch (trace w) plan) |}).
Proof.
  induction plan as [|call plan IH]; intros w.
  - cbn. now rewrite world_eta.
  - cbn [for_each deliver]. unfold bind, put at 1, put_metric_data.
    destruct (cloudwatch (trace w) (fst call) (snd call)); [reflexivity|].
    rewrite IH. reflexivity.
Qed.

(** What a flush does, in one equation. *)
Lemma flush_metrics_run w :
  flush_metrics cloudwatch w
  = match metric_buffer (self w) with
    | [] => (Ok tt, w)
    | _ :: _ =>
        let namespaced_metrics := group_by_namespace (metric_buffer (self w)) in
        match deliver cloudwatch (trace w) (plan_of namespaced_metrics) with
        | (t, None) =>
            (Ok tt,
             {| self := set_metric_buffer [] (self w);
                trace := t ++ [Logged INFO "Flushed metrics to CloudWatch"
                                 (Count (list_sum (map (@List.length _)
                                           (values namespaced_metrics))))] |})
        | (t, Some e) =>
            (Ok tt,
             {| self := self w;
                trace := t ++ [Logged ERROR
                                 "Failed to flush metrics to CloudWatch"
                                 (Cause e)] |})
        end
    end.
Proof.
  unfold flush_metrics. unfold bind at 1, read.
  destruct (metric_buffer (self w)) as [|entry buffer] eqn:Hb; [reflexivity|].
  unfold try_except. cbv zeta. unfold bind at 1.
  rewrite send_batches_plan, deliver_run.
  destruct (deliver cloudwatch (trace w) _) as [t [e|]]; reflexivity.
Qed.

Lemma puts_app t t' : puts (t ++ t') = (puts t ++ puts t')%list.
Proof. apply flat_map_app. Qed.


Lemma deliver_accepted plan :
  (forall t ns batch, cloudwatch t ns batch = None) ->
  forall t, deliver cloudwatch t plan = ((t ++ map put_event plan)%list, None).
Proof.
  intros Hup. induction plan as [|call plan IH]; intros t.
  - cbn. now rewrite app_nil_r.
  - cbn [deliver map]. rewrite Hup, IH, <- app_assoc. reflexivity.
Qed.

Lemma deliver_nil_buffer t : deliver cloudwatch t (flush_plan []) = (t, None).
Proof. reflexivity. Qed.

End FlushFacts.

Section FlushClaims.

Import Py Collector Spec.
Open Scope string_scope.

Implicit Type sink : list event -> string -> list MetricDatum -> option exn.

(** C1, as the code has it. [flush_metrics] never raises, and it clears
    the buffer only after the last batch: with [outcome] the sink's part
    in the flush, the buffer is empty afterwards exactly when no put
    call failed, and when a put call raises [e] the remaining batches
    are not sent, the error is logged, and the collector, its buffer
    included, is left as it was. *)
Theorem flush_clears_only_on_success sink (w : world) :
  let run := flush_metrics sink w in
  let outcome := deliver sink (trace w) (flush_plan (metric_buffer (self w))) in
  fst run = Ok tt
  /\ (metric_buffer (self (snd run)) = [] <-> snd outcome = None)
  /\ (forall e, snd outcome = Some e ->
        self (snd run) = self w
        /\ metric_buffer (self w) <> []
        /\ trace (snd run)
           = (fst outcome
              ++ [Logged ERROR "Failed to flush metrics to CloudWatch"
                    (Cause e)])%list).
Proof.
  cbv zeta. rewrite flush_metrics_run. unfold flush_plan.
  destruct (metric_buffer (self w)) as [|entry buffer] eqn:Hb.
  - cbn. rewrite Hb. repeat split; auto; discriminate.
  - cbv zeta.
    destruct (deliver sink (trace w) _) as [t [e|]]; cbn [fst snd self trace].
    + rewrite Hb. split; [reflexivity|]. split; [split; discriminate|].
      intros e' [= <-]. repeat split. discriminate.
    + split; [reflexivity|]. split; [split; reflexivity|]. discriminate.
Qed.

(** C1 as stated fails: with the sink down, a flush of 45 buffered
    observations returns normally, has attempted one put call and logged
    the error, and the buffer still holds the 45 observations. *)
Lemma flush_keeps_buffer_on_failure :
  let run := flush_metrics sink_down (loaded 45) in
  fst run = Ok tt
  /\ metric_buffer (self (snd run)) = metric_buffer (self (loaded 45))
  /\ List.length (observations (metric_buffer (self (snd run)))) = 45
  /\ map (fun call => List.length (snd call)) (puts (trace (snd run))) = [20]
  /\ last (trace (snd run)) (Logged INFO "" NoDetail)
     = Logged ERROR "Failed to flush metrics to CloudWatch"
         (Cause (ClientError "EndpointConnectionError")).
Proof. vm_compute. repeat split. Qed.


Lemma puts_put_events (plan : list (string * list MetricDatum)) :
  puts (map put_event plan) = plan.
Proof.
  induction plan as [|[ns b] plan IH]; [reflexivity|].
  cbn [map]. change (puts (put_event (ns, b) :: map put_event plan))
    with ((ns, b) :: puts (map put_event plan)).
  now rewrite IH.
Qed.


(** The batch cap on a concrete run: 45 observations of one metric, a
    sink that accepts everything. *)
Example flush_45_observations :
  let run := flush_metrics sink_up (loaded 45) in
  map (fun call => (fst call, List.length (snd call))) (puts (trace (snd run)))
  = [(Namespace.API, 20); (Namespace.API, 20); (Namespace.API, 5)]
  /\ metric_buffer (self (snd run)) = [].
Proof. vm_compute. split; reflexivity. Qed.

Close Scope string_scope.

End FlushClaims.

(** ** The drift estimator *)

Section DriftFacts.

Import Py Drift.
Open Scope R_scope.

Lemma sign_of_pos r : 0 < r -> sign_of r = Gt.
Proof. intros H. unfold sign_of. destruct (total_order_T r 0) as [[|]|]; auto; lra. Qed.

Lemma sign_of_zero : sign_of 0 = Eq.
Proof. unfold sign_of. destruct (total_order_T 0 0) as [[|]|]; auto; lra. Qed.

Lemma fdiv_by_pos x y : 0 < y -> fdiv (Num x) (Num y) = Num (x / y).
Proof. intros H. unfold fdiv. now rewrite sign_of_pos. Qed.

Lemma fdiv_zero_zero : fdiv (Num 0) (Num 0) = NaN.
Proof. unfold fdiv. now rewrite sign_of_zero. Qed.

Lemma fdiv_nan_r a : fdiv a NaN = NaN.
Proof. now destruct a. Qed.

Lemma fmul_nan_r a : fmul a NaN = NaN.
Proof. now destruct a. Qed.

Lemma fadd_nan_r a : fadd a NaN = NaN.
Proof. now destruct a. Qed.

(** *** Arrays of NaN and arrays of positive numbers *)

Lemma zip_with_length {A B C} (f : A -> B -> C) a : forall b,
  List.length (zip_with f a b) = Nat.min (List.length a) (List.length b).
Proof.
  induction a as [|x a IH]; intros [|y b]; cbn [zip_with List.length Nat.min];
    auto.
Qed.

Lemma zip_with_Forall {A B C} (f : A -> B -> C)
  (P : A -> Prop) (Q : B -> Prop) (R : C -> Prop) a :
  (forall x y, P x -> Q y -> R (f x y)) ->
  forall b, Forall P a -> Forall Q b -> Forall R (zip_with f a b).
Proof.
  intros Hf. induction a as [|x a IH]; intros [|y b] Ha Hb;
    cbn [zip_with]; try constructor.
  - inversion Ha; inversion Hb; subst. now apply Hf.
  - inversion Ha; inversion Hb; subst. now apply IH.
Qed.

Lemma Forall_trivial {A} (l : list A) : Forall (fun _ => True) l.
Proof. induction l; constructor; auto. Qed.

Lemma fold_fadd_nan (a : list npfloat) : fold_left fadd a NaN = NaN.
Proof. induction a as [|v a IH]; [reflexivity | exact IH]. Qed.

Lemma np_sum_nan (a : list npfloat) :
  all_nan a -> a <> [] -> np_sum a = NaN.
Proof.
  intros Ha Hne. destruct a as [|v a]; [congruence|].
  inversion Ha; subst. unfold np_sum. cbn [fold_left fadd].
  apply fold_fadd_nan.
Qed.

Lemma nonempty_of_length {A} (l : list A) n :
  List.length l = S n -> l <> [].
Proof. destruct l; [discriminate | congruence]. Qed.

Lemma fold_fadd_positive (a : list npfloat) :
  Forall positive a ->
  forall s, 0 <= s ->
    exists t, fold_left fadd a (Num s) = Num t /\ s <= t
              /\ (a <> [] -> 0 < t).
Proof.
  induction 1 as [|v a (r & -> & Hr) Ha IH]; intros s Hs.
  - exists s. repeat split; [lra | congruence].
  - cbn [fold_left fadd].
    destruct (IH (s + r)) as (t & Ht & Hle & _); [lra|].
    exists t. repeat split; auto; lra.
Qed.

Lemma normalised_positive (a : list npfloat) :
  Forall positive a ->
  Forall positive (map (fun v => fdiv v (np_sum a)) a).
Proof.
  intros Ha. destruct a as [|v a]; [constructor|].
  destruct (fold_fadd_positive Ha (Rle_refl 0)) as (t & Ht & _ & Hpos).
  unfold np_sum. rewrite Ht.
  assert (Ht0 : 0 < t) by (apply Hpos; discriminate).
  apply Forall_map. eapply Forall_impl; [|exact Ha].
  intros ? (r & -> & Hr). exists (r / t).
  split; [now apply fdiv_by_pos | now apply Rdiv_lt_0_compat].
Qed.

Lemma smoothed_positive (a : list npfloat) :
  Forall nonnegative a ->
  Forall positive (map (fun v => fadd v (Num epsilon)) a).
Proof.
  intros Ha. apply Forall_map. eapply Forall_impl; [|exact Ha].
  intros ? (r & -> & Hr). exists (r + epsilon). split; [reflexivity|].
  assert (0 < epsilon) by (unfold epsilon; apply Rinv_0_lt_compat; lra).
  lra.
Qed.

Lemma self_term r : 0 < r -> fmul (Num r) (flog (fdiv (Num r) (Num r))) = Num 0.
Proof.
  intros Hr. rewrite fdiv_by_pos by assumption.
  replace (r / r) with 1 by (field; lra).
  unfold flog. rewrite sign_of_pos by lra. rewrite ln_1.
  cbn [fmul]. now rewrite Rmult_0_r.
Qed.

Lemma self_divergence (p : list npfloat) :
  Forall positive p ->
  np_sum (zip_with fmul p (map flog (zip_with fdiv p p))) = Num 0.
Proof.
  unfold np_sum. induction 1 as [|v p (r & -> & Hr) Hp IH]; [reflexivity|].
  cbn [zip_with map fold_left]. rewrite self_term by assumption.
  cbn [fadd]. now rewrite Rplus_0_r.
Qed.

(** *** The histogram over the ten bins of [0, 1] *)

Lemma bins_increasing : increasing bins = true.
Proof. vm_compute. reflexivity. Qed.

Lemma bin_widths_positive : Forall (fun d => 0 < Q2R d) (np_diff bins).
Proof.
  assert (H : Forall (fun d => (0 < d)%Q) (np_diff bins)).
  { vm_compute. repeat constructor. }
  eapply Forall_impl; [|exact H].
  intros d Hd. apply Qlt_Rlt in Hd. unfold Q2R at 1 in Hd.
  cbn in Hd. lra.
Qed.

Lemma count_le_total (n : nat) (counts : list nat) :
  In n counts -> (n <= list_sum counts)%nat.
Proof.
  induction counts as [|c counts IH]; intros []; simpl.
  - subst. lia.
  - specialize (IH H). lia.
Qed.

Lemma density_of_empty d :
  0 < d -> fdiv (fdiv (Num (INR 0)) (Num d)) (Num (INR 0)) = NaN.
Proof.
  intros Hd. cbn [INR]. rewrite fdiv_by_pos by assumption.
  replace (0 / d) with 0 by (field; lra). apply fdiv_zero_zero.
Qed.

Lemma density_nonnegative n d total :
  0 < d -> (0 < total)%nat ->
  nonnegative (fdiv (fdiv (Num (INR n)) (Num d)) (Num (INR total))).
Proof.
  intros Hd Ht. apply lt_0_INR in Ht.
  rewrite !fdiv_by_pos by assumption.
  exists (INR n / d / INR total). split; [reflexivity|].
  pose proof (pos_INR n).
  apply Rmult_le_pos; [apply Rmult_le_pos|]; auto;
    left; now apply Rinv_0_lt_compat.
Qed.

(** The histogram of a sample over [bins]: ten values, all NaN when no
    value of the sample lies in [0, 1], all non-negative numbers
    otherwise. *)
Lemma np_histogram_shape (data : list Q) :
  exists hist,
    np_histogram data bins = Ok hist
    /\ List.length hist = 10%nat
    /\ (list_sum (bin_counts data bins) = 0%nat -> all_nan hist)
    /\ ((0 < list_sum (bin_counts data bins))%nat -> Forall nonnegative hist).
Proof.
  unfold np_histogram. rewrite bins_increasing. eexists.
  split; [reflexivity|]. split; [|split].
  - rewrite zip_with_length. reflexivity.
  - intros H0. rewrite H0.
    apply zip_with_Forall
      with (P := fun n => In n (bin_counts data bins))
           (Q := fun d => 0 < Q2R d).
    + intros n d Hn Hd. apply count_le_total in Hn.
      assert (n = 0%nat) as -> by lia.
      symmetry. now apply density_of_empty.
    + apply Forall_forall. auto.
    + apply bin_widths_positive.
  - intros Hpos.
    apply zip_with_Forall with (P := fun _ => True) (Q := fun d => 0 < Q2R d).
    + intros n d _ Hd. now apply density_nonnegative.
    + apply Forall_trivial.
    + apply bin_widths_positive.
Qed.

Lemma bin_counts_empty : list_sum (bin_counts [] bins) = 0%nat.
Proof. reflexivity. Qed.

Lemma filter_count {A} (f : A -> bool) (x : A) (l : list A) :
  In x l -> f x = true -> (1 <= List.length (filter f l))%nat.
Proof.
  intros Hin Hf.
  assert (H : In x (filter f l)) by (apply filter_In; auto).
  destruct (filter f l); [destruct H | cbn; lia].
Qed.

Lemma bin_counts_step (data : list Q) lo hi rest :
  bin_counts data (lo :: hi :: rest)
  = List.length
      (filter (in_bin lo hi match rest with [] => true | _ => false end) data)
    :: bin_counts data (hi :: rest).
Proof. reflexivity. Qed.

Lemma list_sum_cons (n : nat) (l : list nat) :
  list_sum (n :: l) = (n + list_sum l)%nat.
Proof. reflexivity. Qed.

(** A value between the first and the last edge is counted in a bin. *)
Lemma bin_counts_cover (data : list Q) (x : Q) :
  In x data ->
  forall rest lo,
    rest <> [] ->
    Qle_bool lo x = true ->
    Qle_bool x (last (lo :: rest) 0%Q) = true ->
    (1 <= list_sum (bin_counts data (lo :: rest)))%nat.
Proof.
  intros Hin. induction rest as [|hi rest IH]; intros lo Hne Hlo Hhi;
    [congruence|].
  rewrite bin_counts_step, list_sum_cons. destruct rest as [|r rest].
  - cbn [last] in Hhi.
    pose proof (filter_count (in_bin lo hi true) x data Hin) as Hc.
    unfold in_bin at 1 in Hc. rewrite Hlo, Hhi in Hc.
    specialize (Hc eq_refl). lia.
  - destruct (Qle_bool hi x) eqn:E.
    + assert (1 <= list_sum (bin_counts data (hi :: r :: rest)))%nat
        by (apply IH; [discriminate | assumption | exact Hhi]).
      lia.
    + pose proof (filter_count (in_bin lo hi false) x data Hin) as Hc.
      unfold in_bin at 1 in Hc. rewrite Hlo, E in Hc.
      specialize (Hc eq_refl). lia.
Qed.

Lemma bin_counts_inside (data : list Q) (x : Q) :
  In x data -> (0 < x)%Q -> (x < 1)%Q ->
  (0 < list_sum (bin_counts data bins))%nat.
Proof.
  intros Hin H0 H1.
  change bins with (hd 0%Q bins :: tl bins).
  apply (bin_counts_cover data x Hin); [discriminate| |].
  - apply Qle_bool_iff. apply Qlt_le_weak.
    eapply Qle_lt_trans; [|exact H0]. vm_compute. discriminate.
  - apply Qle_bool_iff. apply Qlt_le_weak.
    eapply Qlt_le_trans; [exact H1|]. vm_compute. discriminate.
Qed.

Lemma all_nan_map (f : npfloat -> npfloat) (a : list npfloat) :
  f NaN = NaN -> all_nan a -> all_nan (map f a).
Proof.
  intros Hf Ha. apply Forall_map. eapply Forall_impl; [|exact Ha].
  intros ? <-. now rewrite Hf.
Qed.

(** C7. The code departs from the claim at an empty sample: the
    histogram of an empty sample is an array of NaN (NumPy divides zero
    counts by their zero sum, which warns and raises nothing), the NaN
    goes through the smoothing, the normalisation and the sum, the
    handler that returns 0.0 is never entered, and the drift of an empty
    current sample against any baseline, and of any current sample
    against an empty baseline, is NaN, with nothing logged. *)
Theorem drift_of_empty_sample_is_nan :
  (forall baseline_data,
      _calculate_distribution_drift [] baseline_data = (NaN, []))
  /\ (forall current_data,
         _calculate_distribution_drift current_data [] = (NaN, [])).
Proof.
  split.
  - intros baseline_data.
    destruct (np_histogram_shape []) as (hc & Hc & Lc & Hnan & _).
    destruct (np_histogram_shape baseline_data) as (hb & Hb & Lb & _).
    specialize (Hnan bin_counts_empty).
    unfold _calculate_distribution_drift, kl_divergence.
    rewrite Hc, Hb. cbv zeta.
    rewrite np_sum_nan; [reflexivity| |].
    + apply zip_with_Forall with (P := eq NaN) (Q := fun _ => True).
      * now intros ? ? <- _.
      * repeat apply all_nan_map; auto.
      * apply Forall_trivial.
    + apply nonempty_of_length with (n := 9%nat).
      now rewrite zip_with_length, !length_map, zip_with_length, !length_map,
        Lc, Lb.
  - intros current_data.
    destruct (np_histogram_shape current_data) as (hc & Hc & Lc & _).
    destruct (np_histogram_shape []) as (hb & Hb & Lb & Hnan & _).
    specialize (Hnan bin_counts_empty).
    unfold _calculate_distribution_drift, kl_divergence.
    rewrite Hc, Hb. cbv zeta.
    rewrite np_sum_nan; [reflexivity| |].
    + apply zip_with_Forall with (P := fun _ => True) (Q := eq NaN).
      * intros x ? _ <-. symmetry. apply fmul_nan_r.
      * apply Forall_trivial.
      * apply all_nan_map; [reflexivity|].
        apply zip_with_Forall with (P := fun _ => True) (Q := eq NaN).
        -- intros x ? _ <-. symmetry. apply fdiv_nan_r.
        -- apply Forall_trivial.
        -- repeat apply all_nan_map; auto.
    + apply nonempty_of_length with (n := 9%nat).
      now rewrite zip_with_length, !length_map, zip_with_length, !length_map,
        Lc, Lb.
Qed.

(** C8. For every non-empty sample of values strictly between 0 and 1,
    whatever number of bins it occupies, the drift of the sample against
    itself is a number within the smoothing constant of zero, and in
    exact arithmetic zero itself: the two smoothed, re-normalised
    histograms coincide, so every term is [p * ln 1]. Nothing is
    logged. *)
Theorem drift_of_sample_against_itself (X : list Q) :
  X <> [] ->
  Forall (fun x => 0 < x /\ x < 1)%Q X ->
  exists d,
    _calculate_distribution_drift X X = (Num d, [])
    /\ Rabs d <= epsilon
    /\ d = 0.
Proof.
  intros Hne Hin.
  destruct (np_histogram_shape X) as (h & Hh & _ & _ & Hpos).
  assert (Htotal : (0 < list_sum (bin_counts X bins))%nat).
  { destruct X as [|x X]; [congruence|]. inversion Hin as [|? ? [H0 H1]]; subst.
    apply bin_counts_inside with (x := x); auto. now left. }
  specialize (Hpos Htotal).
  unfold _calculate_distribution_drift, kl_divergence.
  rewrite Hh. cbv zeta.
  rewrite self_divergence
    by (apply normalised_positive, smoothed_positive, Hpos).
  exists 0. split; [reflexivity|]. split; [|reflexivity].
  rewrite Rabs_R0. unfold epsilon. left. apply Rinv_0_lt_compat. lra.
Qed.

Lemma drift_of_sample_against_itself_witness :
  exists d,
    _calculate_distribution_drift [0.1; 0.9; 0.1; 0.9]%Q [0.1; 0.9; 0.1; 0.9]%Q
    = (Num d, [])
    /\ Rabs d <= epsilon
    /\ d = 0.
Proof.
  apply drift_of_sample_against_itself.
  - discriminate.
  - repeat constructor.
Defined.

Close Scope R_scope.

End DriftFacts.

(* ================================================================== *)
(** * Further properties of the collector *)

(** ** API calls and security events *)

Section OperationFacts.

Import Py Collector Spec Operations.
Open Scope string_scope.

Lemma ret_run {A} (a : A) w : ret a w = (Ok a, w).
Proof. reflexivity. Qed.

Lemma record_run n v u d t w :
  _record_metric n v u d t w
  = (Ok tt,
     {| self := set_metric_buffer
                  (buffer_append (mkMetricData n v u t d)
                     (metric_buffer (self w))) (self w);
        trace := trace w |}).
Proof. reflexivity. Qed.

(** The observations of name [n] after recording, for any buffer. *)
Lemma get_record_all n (ms : list MetricData) : forall buffer,
  get (record_all ms buffer) n [] = (get buffer n [] ++ named n ms)%list.
Proof.
  unfold record_all. induction ms as [|m ms IH]; intros buffer.
  - cbn. now rewrite app_nil_r.
  - cbn [fold_left]. rewrite IH, get_append, <- app_assoc.
    f_equal. unfold named. cbn [filter].
    destruct (String.eqb (name m) n); reflexivity.
Qed.

Lemma collect_api_metrics_run endpoint method status_code response_time
  request_size response_size now w :
  collect_api_metrics endpoint method status_code response_time
    request_size response_size now w
  = (Ok tt,
     {| self := set_metric_buffer
                  (record_all
                     (api_observations endpoint method status_code
                        response_time request_size response_size now)
                     (metric_buffer (self w))) (self w);
        trace := trace w |}).
Proof.
  unfold collect_api_metrics, api_observations.
  rewrite !bind_record.
  destruct (Z.leb_spec 400 status_code) as [H|H];
    destruct (Z.ltb_spec status_code 400) as [H'|H']; try lia;
    [rewrite record_run | rewrite ret_run];
    destruct w as [[]]; reflexivity.
Qed.

(** X1. An API call is recorded without raising and without logging:
    the buffer gains one duration, one request size and one response
    size, and one [api_errors_total] observation exactly when the status
    code is 400 or more, of error type client below 500 and server from
    500 on; the rest of the collector is untouched. *)
Theorem collect_api_metrics_records endpoint method status_code
  response_time request_size response_size now w :
  let run := collect_api_metrics endpoint method status_code response_time
               request_size response_size now w in
  let count n (c : MetricsCollector) :=
    List.length (get (metric_buffer c) n []) in
  run
  = (Ok tt,
     {| self := set_metric_buffer
                  (record_all
                     (api_observations endpoint method status_code
                        response_time request_size response_size now)
                     (metric_buffer (self w))) (self w);
        trace := trace w |})
  /\ count "api_request_duration" (self (snd run))
     = S (count "api_request_duration" (self w))
  /\ count "api_request_size" (self (snd run))
     = S (count "api_request_size" (self w))
  /\ count "api_response_size" (self (snd run))
     = S (count "api_response_size" (self w))
  /\ count "api_errors_total" (self (snd run))
     = count "api_errors_total" (self w)
       + (if (400 <=? status_code)%Z then 1 else 0)
  /\ (forall m,
         In m (get (metric_buffer (self (snd run))) "api_errors_total" []) ->
         In m (get (metric_buffer (self w)) "api_errors_total" [])
         \/ dict_get "ErrorType" (dimensions m)
            = Some (PyStr (if (status_code <? 500)%Z then "client"
                           else "server"))).
Proof.
  cbv zeta. rewrite collect_api_metrics_run.
  split; [reflexivity|]. cbn [snd self].
  assert (B : forall b c, metric_buffer (set_metric_buffer b c) = b)
    by (intros b []; reflexivity).
  rewrite !B, !get_record_all, !length_app.
  unfold api_observations, named.
  destruct (Z.leb_spec 400 status_code) as [H|H];
    destruct (Z.ltb_spec status_code 400) as [H'|H']; try lia;
    cbn; repeat split; try lia.
  - intros m Hin. apply in_app_or in Hin. destruct Hin as [Hin|[<-|[]]];
      [now left | right; reflexivity].
  - intros m Hin. rewrite app_nil_r in Hin. now left.
Qed.

(** X2. On a collector whose buffer is empty, what one API call records
    is flushed in a single put call, under the API namespace, in the
    order recorded. *)
Theorem api_call_flushes_under_api endpoint method status_code
  response_time request_size response_size now w :
  metric_buffer (self w) = [] ->
  flush_plan
    (metric_buffer (self (snd (collect_api_metrics endpoint method
       status_code response_time request_size response_size now w))))
  = [(Namespace.API,
      map to_metric_datum
        (api_observations endpoint method status_code response_time
           request_size response_size now))].
Proof.
  intros Hb. rewrite collect_api_metrics_run. cbn [snd self].
  destruct w as [[r b bm bl dw] t]. cbn in Hb. subst b.
  unfold api_observations.
  destruct (status_code <? 400)%Z; reflexivity.
Qed.

Lemma api_call_flushes_under_api_witness :
  flush_plan
    (metric_buffer (self (snd (collect_api_metrics "/predict" "POST" 503
       (FFin 0.25) 512 64 0 fresh))))
  = [(Namespace.API,
      map to_metric_datum
        (api_observations "/predict" "POST" 503 (FFin 0.25) 512 64 0))].
Proof. apply api_call_flushes_under_api. reflexivity. Defined.

Lemma str_prefix_short n : forall s,
  String.length s <= n -> str_prefix n s = s.
Proof.
  unfold str_prefix. induction n as [|n IH]; intros [|c s] H;
    cbn in *; try reflexivity; [exfalso; lia|].
  f_equal. apply IH. lia.
Qed.

Lemma str_prefix_length n : forall s,
  String.length (str_prefix n s) = Nat.min n (String.length s).
Proof.
  unfold str_prefix. induction n as [|n IH]; intros [|c s];
    cbn; try reflexivity.
  now rewrite IH.
Qed.

Lemma string_length_app (s s' : string) :
  String.length (s ++ s') = String.length s + String.length s'.
Proof. induction s as [|c s IH]; cbn; [reflexivity | now rewrite IH]. Qed.

Lemma collect_security_metrics_run event_type source_ip user_agent status
  now w :
  collect_security_metrics event_type source_ip user_agent status now w
  = (Ok tt,
     {| self := set_metric_buffer
                  (record_all
                     (security_event event_type status now
                      :: (if String.eqb event_type "authentication"
                             && String.eqb status "failed"
                          then [failed_authentication
                                  (str_prefix 8 source_ip ++ "xxx") now]
                          else []))
                     (metric_buffer (self w))) (self w);
        trace := trace w |}).
Proof.
  unfold collect_security_metrics. rewrite bind_record.
  destruct (_ && _); [rewrite record_run | rewrite ret_run];
    destruct w as [[]]; reflexivity.
Qed.

(** X3. A security event is recorded without raising and without
    logging: one [security_events_total] observation with the event
    type, the status and the source region [unknown], followed by one
    [failed_authentication_attempts] observation exactly when the event
    type is [authentication] and the status is [failed]. The user agent
    is not recorded. *)
Theorem collect_security_metrics_records event_type source_ip user_agent
  status now w :
  let failed := String.eqb event_type "authentication"
                && String.eqb status "failed" in
  collect_security_metrics event_type source_ip user_agent status now w
  = (Ok tt,
     {| self := set_metric_buffer
                  (record_all
                     (security_event event_type status now
                      :: (if failed
                          then [failed_authentication
                                  (str_prefix 8 source_ip ++ "xxx") now]
                          else []))
                     (metric_buffer (self w))) (self w);
        trace := trace w |})
  /\ (failed = true <-> event_type = "authentication" /\ status = "failed")
  /\ (forall user_agent',
         collect_security_metrics event_type source_ip user_agent' status
           now w
         = collect_security_metrics event_type source_ip user_agent status
             now w).
Proof.
  cbv zeta. split; [|split].
  - apply collect_security_metrics_run.
  - now rewrite andb_true_iff, !String.eqb_eq.
  - reflexivity.
Qed.

(** X4. The source address of a failed authentication reaches the buffer
    only through its first 8 characters, followed by [xxx]: two
    addresses that agree on those characters leave the same collector,
    the recorded value has at most 11 characters, and an address of 8
    characters or fewer is recorded whole. *)
Theorem source_ip_redaction event_type source_ip user_agent status now w :
  (forall source_ip',
      str_prefix 8 source_ip' = str_prefix 8 source_ip ->
      collect_security_metrics event_type source_ip' user_agent status now w
      = collect_security_metrics event_type source_ip user_agent status
          now w)
  /\ String.length (str_prefix 8 source_ip ++ "xxx") <= 11
  /\ (String.length source_ip <= 8 ->
      str_prefix 8 source_ip ++ "xxx" = source_ip ++ "xxx").
Proof.
  split; [|split].
  - intros source_ip' E. unfold collect_security_metrics, _get_ip_region.
    now rewrite E.
  - rewrite string_length_app, str_prefix_length.
    change (String.length "xxx") with 3. lia.
  - intros H. now rewrite str_prefix_short.
Qed.

Lemma source_ip_redaction_witness :
  str_prefix 8 "10.0.0.7" ++ "xxx" = "10.0.0.7" ++ "xxx".
Proof.
  refine (proj2 (proj2 (source_ip_redaction "authentication" "10.0.0.7"
                          "curl" "failed" 0 fresh)) _).
  apply Nat.leb_le. reflexivity.
Defined.

(** X5. On a collector whose buffer is empty, a failed authentication is
    flushed in two put calls: the event count under the Security
    namespace, and the failed-attempt observation, whose name has none
    of the classified prefixes, under Custom. *)
Theorem failed_authentication_flushes_under_custom source_ip user_agent now w :
  metric_buffer (self w) = [] ->
  flush_plan
    (metric_buffer (self (snd (collect_security_metrics "authentication"
       source_ip user_agent "failed" now w))))
  = [(Namespace.Security,
      [to_metric_datum (security_event "authentication" "failed" now)]);
     (Namespace.Custom,
      [to_metric_datum
         (failed_authentication (str_prefix 8 source_ip ++ "xxx") now)])].
Proof.
  intros Hb. rewrite collect_security_metrics_run. cbn [snd self].
  destruct w as [[r b bm bl dw] t]. cbn in Hb. subst b. reflexivity.
Qed.

Lemma failed_authentication_flushes_under_custom_witness :
  flush_plan
    (metric_buffer (self (snd (collect_security_metrics "authentication"
       "192.168.10.24" "curl" "failed" 0 fresh))))
  = [(Namespace.Security,
      [to_metric_datum (security_event "authentication" "failed" 0)]);
     (Namespace.Custom,
      [to_metric_datum
         (failed_authentication (str_prefix 8 "192.168.10.24" ++ "xxx") 0)])].
Proof. apply failed_authentication_flushes_under_custom. reflexivity. Defined.

Close Scope string_scope.

End OperationFacts.

(** ** The drift check *)

Section DriftCheckFacts.

Import Py Collector Spec Operations.
Open Scope string_scope.

Variable sns_publish : string -> string -> string -> M NoneType.
Variable environ : dict string.
Variable alert_message : string -> pyfloat -> Z -> string.
Variable drift_score : list pyval -> list pyval -> pyfloat * list event.

Lemma get_touch {V} (k k' : string) (fresh : V) (d : dict V) :
  get (dict_update k (fun v => v) fresh d) k' fresh = get d k' fresh.
Proof.
  unfold get. destruct (String.eqb k k') eqn:E.
  - apply String.eqb_eq in E. subst k'. rewrite dict_get_update_same.
    now destruct (dict_get k d).
  - rewrite dict_get_update_other; [reflexivity|].
    intros ->. now rewrite String.eqb_refl in E.
Qed.

Lemma touch_twice {V} (k : string) (fresh : V) (d : dict V) :
  dict_update k (fun v => v) fresh (dict_update k (fun v => v) fresh d)
  = dict_update k (fun v => v) fresh d.
Proof.
  induction d as [|[k' v] d IH]; cbn [dict_update].
  - now rewrite String.eqb_refl.
  - destruct (String.eqb k k') eqn:E; cbn [dict_update]; rewrite E;
      [reflexivity | now rewrite IH].
Qed.

Lemma bind_ok {A B} (m : M A) (k : A -> M B) w a w' :
  m w = (Ok a, w') -> bind m k w = k a w'.
Proof. intros E. unfold bind. now rewrite E. Qed.

Lemma business_series_run series w :
  business_series series w
  = (Ok (get (business_metrics (self w)) series []),
     {| self := set_business_metrics
                  (dict_update series (fun d => d) []
                     (business_metrics (self w))) (self w);
        trace := trace w |}).
Proof.
  unfold business_series. rewrite bind_update. unfold read.
  cbn [self]. destruct w as [[]]. cbn. now rewrite get_touch.
Qed.

Lemma send_drift_alert_run drift_type score now w :
  _send_drift_alert sns_publish environ alert_message drift_type score now w
  = (Ok tt, {| self := self w; trace := (trace w ++ [alert_failure])%list |}).
Proof. reflexivity. Qed.

(** X6. A drift alert is never published: whatever the alert channel,
    the environment and the message, sending an alert returns without
    raising, leaves the collector as it is and logs that it failed,
    because the name [os] it reads for the topic is not bound. *)
Theorem drift_alert_is_never_published drift_type score now w :
  _send_drift_alert sns_publish environ alert_message drift_type score now w
  = (Ok tt, {| self := self w; trace := (trace w ++ [alert_failure])%list |}).
Proof. reflexivity. Qed.

(** X7. With fewer values in the fraud-probability series than the
    drift window, the drift check does nothing but log that the data is
    insufficient: the buffer is untouched, no drift is computed, no
    alert is attempted, and every series reads as before (the series
    [fraud_probabilities] now exists if it did not). *)
Theorem drift_check_needs_a_full_window now now' now'' w :
  List.length (get (business_metrics (self w)) "fraud_probabilities" [])
  < drift_window_size (self w) ->
  let run := collect_model_drift_metrics sns_publish environ alert_message
               drift_score now now' now'' w in
  fst run = Ok tt
  /\ metric_buffer (self (snd run)) = metric_buffer (self w)
  /\ trace (snd run)
     = (trace w
        ++ [Logged INFO "Insufficient data for drift detection" NoDetail])%list
  /\ (forall series,
         get (business_metrics (self (snd run))) series []
         = get (business_metrics (self w)) series [])
  /\ keys (business_metrics (self (snd run)))
     = keys (dict_update "fraud_probabilities" (fun d => d) []
               (business_metrics (self w))).
Proof.
  intros Hlen. cbv zeta. unfold collect_model_drift_metrics.
  erewrite bind_ok by apply business_series_run.
  erewrite bind_ok by reflexivity.
  cbn [self drift_window_size].
  replace (drift_window_size (set_business_metrics _ (self w)))
    with (drift_window_size (self w)) by now destruct w as [[]].
  apply Nat.ltb_lt in Hlen. rewrite Hlen.
  destruct w as [[r b bm bl dw] t]. cbn.
  repeat split. intros series. apply get_touch.
Qed.

(** X8. With a full window, the drift check returns without raising and
    records exactly two observations, the drift of the last
    [drift_window_size] fraud probabilities and that of the last
    [drift_window_size] confidences, each against its baseline (the
    entry of [baseline_metrics], or the first 50 values of the window
    when there is none). For each score above 0.15 an alert is attempted
    and leaves only its failure in the log; a score that is NaN or at
    most 0.15 attempts none. *)
Theorem drift_check_records_two_scores now now' now'' w :
  let series := business_metrics (self w) in
  let window := drift_window_size (self w) in
  let probs := last_slice window (get series "fraud_probabilities" []) in
  let confs := last_slice window (get series "confidences" []) in
  let p := drift_score probs
             (get (baseline_metrics (self w)) "fraud_probabilities"
                (firstn 50 probs)) in
  let c := drift_score confs
             (get (baseline_metrics (self w)) "confidences"
                (firstn 50 confs)) in
  let alerts score :=
    if float_lt drift_threshold score then [alert_failure] else [] in
  window <= List.length (get series "fraud_probabilities" []) ->
  collect_model_drift_metrics sns_publish environ alert_message drift_score
    now now' now'' w
  = (Ok tt,
     {| self :=
          {| region := region (self w);
             metric_buffer :=
               record_all (drift_observations (fst p) (fst c) now)
                 (metric_buffer (self w));
             business_metrics :=
               dict_update "confidences" (fun d => d) []
                 (dict_update "fraud_probabilities" (fun d => d) [] series);
             baseline_metrics := baseline_metrics (self w);
             drift_window_size := window |};
        trace := (trace w ++ snd p ++ snd c
                  ++ alerts (fst p) ++ alerts (fst c))%list |})
  /\ alerts FNaN = [] /\ alerts drift_threshold = [].
Proof.
  cbv zeta. intros Hlen. split; [|split; reflexivity].
  unfold collect_model_drift_metrics.
  erewrite bind_ok by apply business_series_run.
  erewrite bind_ok by reflexivity.
  destruct w as [[r b bm bl dw] t].
  cbn [self trace drift_window_size business_metrics baseline_metrics
       metric_buffer region set_business_metrics] in *.
  apply Nat.ltb_ge in Hlen. rewrite Hlen.
  erewrite bind_ok by apply business_series_run.
  erewrite bind_ok by apply business_series_run.
  cbn [self trace drift_window_size business_metrics baseline_metrics
       metric_buffer region set_business_metrics].
  rewrite touch_twice, !get_touch.
  erewrite bind_ok by reflexivity.
  unfold call_drift at 1. unfold bind at 1.
  destruct (drift_score _ _) as [ps pl].
  erewrite bind_ok by reflexivity.
  unfold call_drift at 1. unfold bind at 1.
  cbn [self trace drift_window_size business_metrics baseline_metrics
       metric_buffer region set_business_metrics].
  destruct (drift_score _ _) as [cs cl].
  rewrite !bind_record. cbn [fst snd].
  destruct (float_lt drift_threshold ps); destruct (float_lt drift_threshold cs);
    [ erewrite bind_ok by apply send_drift_alert_run;
      rewrite send_drift_alert_run
    | erewrite bind_ok by apply send_drift_alert_run; rewrite ret_run
    | erewrite bind_ok by apply ret_run; rewrite send_drift_alert_run
    | erewrite bind_ok by apply ret_run; rewrite ret_run ];
    cbn [self trace set_metric_buffer set_business_metrics region
         metric_buffer business_metrics baseline_metrics drift_window_size];
    rewrite <- ?app_assoc, ?app_nil_r; reflexivity.
Qed.

Close Scope string_scope.

End DriftCheckFacts.

Section DriftCheckWitnesses.

Import Py Collector Spec Operations.
Open Scope string_scope.

Lemma drift_check_needs_a_full_window_witness :
  let run := collect_model_drift_metrics channel_up [] no_text
               drift_of_a_fifth 0 0 0 (warmed 99) in
  fst run = Ok tt
  /\ metric_buffer (self (snd run)) = []
  /\ trace (snd run)
     = [Logged INFO "Insufficient data for drift detection" NoDetail].
Proof.
  destruct (@drift_check_needs_a_full_window channel_up [] no_text
              drift_of_a_fifth 0 0 0 (warmed 99)) as (H1 & H2 & H3 & _).
  - apply Nat.ltb_lt. reflexivity.
  - exact (conj H1 (conj H2 H3)).
Defined.

Lemma drift_check_records_two_scores_witness :
  metric_buffer (self (snd (collect_model_drift_metrics channel_up [] no_text
                              drift_of_a_fifth 5 6 7 (warmed 100))))
  = record_all (drift_observations (FFin 0.2) (FFin 0.2) 5) []
  /\ trace (snd (collect_model_drift_metrics channel_up [] no_text
                   drift_of_a_fifth 5 6 7 (warmed 100)))
     = [alert_failure; alert_failure].
Proof.
  rewrite (proj1 (@drift_check_records_two_scores channel_up [] no_text
                    drift_of_a_fifth 5 6 7 (warmed 100)
                    ltac:(apply Nat.leb_le; reflexivity))).
  split; reflexivity.
Defined.

Close Scope string_scope.

End DriftCheckWitnesses.

(** ** Flushing, once more *)

Section FlushCompositions.

Import Py Collector Spec Operations.
Open Scope string_scope.

Implicit Type sink : list event -> string -> list MetricDatum -> option exn.

(** X9. After a flush in which no put call failed, a further flush does
    nothing, whatever the sink: no call, no log record, no change. *)
Theorem flush_after_success_is_noop sink sink' (w : world) :
  snd (deliver sink (trace w) (flush_plan (metric_buffer (self w)))) = None ->
  flush_metrics sink' (snd (flush_metrics sink w))
  = (Ok tt, snd (flush_metrics sink w)).
Proof.
  intros Hok. rewrite (flush_metrics_run sink w). unfold flush_plan in Hok.
  destruct (metric_buffer (self w)) as [|entry buffer] eqn:Hb.
  - cbn [snd]. rewrite flush_metrics_run, Hb. reflexivity.
  - cbv zeta. destruct (deliver sink (trace w) _) as [t [e|]];
      [discriminate|]. cbn [snd].
    rewrite flush_metrics_run. destruct (self w). reflexivity.
Qed.

Lemma flush_after_success_is_noop_witness :
  flush_metrics sink_down (snd (flush_metrics sink_up (loaded 45)))
  = (Ok tt, snd (flush_metrics sink_up (loaded 45))).
Proof. apply flush_after_success_is_noop. reflexivity. Defined.

Lemma deliver_failure sink plan : forall t e,
  snd (deliver sink t plan) = Some e ->
  exists accepted rejected rest,
    plan = (accepted ++ rejected :: rest)%list
    /\ fst (deliver sink t plan)
       = (t ++ map put_event (accepted ++ [rejected]))%list
    /\ sink (t ++ map put_event accepted)%list (fst rejected) (snd rejected)
       = Some e
    /\ (forall before call after,
           accepted = (before ++ call :: after)%list ->
           sink (t ++ map put_event before)%list (fst call) (snd call) = None).
Proof.
  induction plan as [|call plan IH]; intros t e H; [discriminate|].
  cbn [deliver] in *.
  destruct (sink t (fst call) (snd call)) as [e'|] eqn:E.
  - cbn in H. injection H as ->.
    exists [], call, plan. cbn. rewrite app_nil_r.
    repeat split; auto. intros [|? ?] ? ? ?; discriminate.
  - destruct (IH _ _ H) as (acc & rej & rest & -> & Hfst & Hrej & Hacc).
    exists (call :: acc), rej, rest. cbn [app map].
    rewrite Hfst, <- !app_assoc. cbn [app].
    rewrite <- app_assoc in Hrej. cbn [app] in Hrej.
    repeat split; auto.
    intros [|c before] call' after Heq; cbn [app] in Heq;
      injection Heq as -> ->.
    + cbn. now rewrite app_nil_r.
    + specialize (Hacc before call' after eq_refl).
      rewrite <- app_assoc in Hacc. exact Hacc.
Qed.

(** X10. A failed flush is sent again in full. When a put call of a flush
    is rejected after the sink accepted the batches [accepted], the
    buffer is kept whole, so the next flush, to a sink that accepts
    every call, sends the entire plan: each batch of [accepted] reaches
    the sink a second time. *)
Theorem failed_flush_is_resent_in_full sink sink' (w : world) e :
  let plan := flush_plan (metric_buffer (self w)) in
  let retried := snd (flush_metrics sink' (snd (flush_metrics sink w))) in
  snd (deliver sink (trace w) plan) = Some e ->
  (forall t ns batch, sink' t ns batch = None) ->
  exists accepted rejected rest,
    plan = (accepted ++ rejected :: rest)%list
    /\ (forall before call after,
           accepted = (before ++ call :: after)%list ->
           sink (trace w ++ map put_event before)%list (fst call) (snd call)
           = None)
    /\ puts (trace retried)
       = (puts (trace w) ++ (accepted ++ [rejected]) ++ plan)%list
    /\ metric_buffer (self retried) = [].
Proof.
  cbv zeta. intros Hfail Hup.
  destruct (deliver_failure sink _ _ Hfail)
    as (acc & rej & rest & Hplan & Hfst & _ & Hacc).
  exists acc, rej, rest. split; [exact Hplan|]. split; [exact Hacc|].
  rewrite (flush_metrics_run sink w). unfold flush_plan in *.
  destruct (metric_buffer (self w)) as [|entry buffer] eqn:Hb;
    [discriminate|].
  cbv zeta.
  destruct (deliver sink (trace w) _) as [t1 [e1|]]; [|discriminate].
  cbn [fst snd] in *. subst t1.
  rewrite flush_metrics_run. cbn [self trace]. rewrite Hb. cbv zeta.
  rewrite (deliver_accepted sink' _ Hup). cbn [snd trace self].
  split; [|now destruct (self w)].
  rewrite !puts_app, !puts_put_events.
  cbn [puts flat_map app]. now rewrite !app_nil_r, <- !app_assoc.
Qed.

Lemma failed_flush_is_resent_in_full_witness :
  exists accepted rejected rest,
    flush_plan (metric_buffer (self (loaded 45)))
    = (accepted ++ rejected :: rest)%list
    /\ (forall before call after,
           accepted = (before ++ call :: after)%list ->
           sink_one_call (trace (loaded 45) ++ map put_event before)%list
             (fst call) (snd call)
           = None)
    /\ puts (trace (snd (flush_metrics sink_up
                          (snd (flush_metrics sink_one_call (loaded 45))))))
       = (puts (trace (loaded 45)) ++ (accepted ++ [rejected])
          ++ flush_plan (metric_buffer (self (loaded 45))))%list
    /\ metric_buffer (self (snd (flush_metrics sink_up
                                   (snd (flush_metrics sink_one_call
                                           (loaded 45))))))
       = [].
Proof.
  apply (@failed_flush_is_resent_in_full sink_one_call sink_up (loaded 45)
           (ClientError "Throttling")).
  - vm_compute. reflexivity.
  - reflexivity.
Defined.

(** *** Nothing is lost and nothing is sent twice *)

Lemma values_append_perm {V} k (x : V) (d : dict (list V)) :
  Permutation
    (List.concat (values (dict_update k (fun l => l ++ [x])%list [] d)))
    (List.concat (values d) ++ [x])%list.
Proof.
  unfold values. induction d as [|[k' l] d IH]; cbn [dict_update].
  - reflexivity.
  - destruct (String.eqb k k'); cbn [map snd List.concat].
    + rewrite <- !app_assoc. apply Permutation_app_head, Permutation_app_comm.
    + rewrite <- app_assoc. now apply Permutation_app_head.
Qed.

Lemma group_fold_perm (l : list MetricData) : forall acc,
  Permutation (List.concat (values (fold_left group_step l acc)))
    (List.concat (values acc) ++ map to_metric_datum l)%list.
Proof.
  induction l as [|m l IH]; intros acc.
  - cbn. now rewrite app_nil_r.
  - cbn [fold_left map]. rewrite IH. unfold group_step. cbv zeta.
    rewrite values_append_perm, <- app_assoc. reflexivity.
Qed.

Lemma plan_concat (g : dict (list MetricDatum)) :
  List.concat (map snd (plan_of g)) = List.concat (values g).
Proof.
  unfold plan_of, values. induction g as [|[k ms] g IH]; [reflexivity|].
  cbn [flat_map map snd List.concat].
  rewrite map_app, concat_app, IH, map_map. cbn [snd].
  now rewrite map_id, batches_concat.
Qed.




Lemma buffer_append_perm m (buffer : dict (list MetricData)) :
  Permutation (observations (buffer_append m buffer))
    (observations buffer ++ [m])%list.
Proof. apply values_append_perm. Qed.

(** X12. The buffer never drops an observation: after any sequence of
    recordings it holds what it held before and what was recorded, each
    once, so on a buffer that was empty a flush that no put call fails
    sends exactly the recorded observations, each once. *)
Theorem recording_keeps_every_observation (recorded : list MetricData)
  (buffer : dict (list MetricData)) :
  Permutation (observations (record_all recorded buffer))
    (observations buffer ++ recorded)%list
  /\ List.length (observations (record_all recorded buffer))
     = List.length (observations buffer) + List.length recorded
  /\ Permutation
       (List.concat (map snd (flush_plan (record_all recorded []))))
       (map to_metric_datum recorded).
Proof.
  assert (P : forall b,
             Permutation (observations (record_all recorded b))
               (observations b ++ recorded)%list).
  { unfold record_all. induction recorded as [|m ms IH]; intros b.
    - cbn. now rewrite app_nil_r.
    - cbn [fold_left]. rewrite IH, buffer_append_perm, <- app_assoc.
      reflexivity. }
  split; [apply P|]. split.
  - rewrite (Permutation_length (P buffer)). apply length_app.
  - unfold flush_plan. rewrite plan_concat. unfold group_by_namespace.
    fold (observations (record_all recorded [])).
    rewrite group_fold_perm. cbn [values map List.concat app].
    apply Permutation_map. apply (P []).
Qed.

Close Scope string_scope.

End FlushCompositions.

(** ** Predictions and the drift window *)

Section PredictionCompositions.

Import Py Collector Spec Operations.
Open Scope string_scope.


Lemma named_feature_observations parse claim_data now n features :
  String.prefix "feature_" n = false ->
  named n (feature_observations parse claim_data now features) = [].
Proof.
  intros Hn. unfold named.
  induction features as [|f fs IH]; [reflexivity|].
  cbn [feature_observations].
  destruct (dict_get f claim_data) as [v|]; [|exact IH].
  destruct (py_float parse v); [|reflexivity].
  cbn [filter name]. rewrite IH.
  destruct (String.eqb ("feature_" ++ f) n) eqn:E; [|reflexivity].
  apply String.eqb_eq in E. subst n. cbn in Hn.
  destruct f; discriminate.
Qed.

Lemma named_app n (a b : list MetricData) :
  named n (a ++ b) = (named n a ++ named n b)%list.
Proof. apply filter_app. Qed.

(** X13. A prediction is recorded before its features are coerced, and
    nothing is undone when the coercion raises: whatever the outcome of
    [collect_prediction_metrics], the buffer has gained the processing
    time, the fraud probability and the confidence observation, and
    both rolling series have received their value. *)
Theorem prediction_is_recorded_whatever_the_outcome parse prediction_data
  processing_time claim_data now w :
  let run := collect_prediction_metrics parse prediction_data
               processing_time claim_data now w in
  let before n := get (metric_buffer (self w)) n [] in
  let after n := get (metric_buffer (self (snd run))) n [] in
  let risk := get prediction_data "risk_level" (PyStr "UNKNOWN") in
  let version := get prediction_data "model_version" (PyStr "1.0") in
  let probability := get prediction_data "fraud_probability" (PyInt 0) in
  let confidence := get prediction_data "confidence" (PyInt 0) in
  after "prediction_processing_time"
  = (before "prediction_processing_time"
     ++ [mkMetricData "prediction_processing_time" processing_time
           "Milliseconds" now
           [("RiskLevel", risk); ("ModelVersion", version)]])%list
  /\ after "fraud_probability"
     = (before "fraud_probability"
        ++ [mkMetricData "fraud_probability" probability "None" now
              [("RiskLevel", risk)]])%list
  /\ after "model_confidence"
     = (before "model_confidence"
        ++ [mkMetricData "model_confidence" confidence "None" now
              [("ModelVersion", version)]])%list
  /\ get (business_metrics (self (snd run))) "fraud_probabilities" []
     = Deque.append business_maxlen probability
         (get (business_metrics (self w)) "fraud_probabilities" [])
  /\ get (business_metrics (self (snd run))) "confidences" []
     = Deque.append business_maxlen confidence
         (get (business_metrics (self w)) "confidences" []).
Proof.
  cbv zeta. rewrite collect_prediction_metrics_run.
  cbn [snd self metric_buffer business_metrics].
  rewrite !get_record_all, !named_app.
  rewrite !named_feature_observations by reflexivity.
  repeat split; try reflexivity.
  - unfold business_append, get.
    rewrite dict_get_update_other by discriminate.
    rewrite dict_get_update_same. reflexivity.
  - unfold business_append, get.
    rewrite dict_get_update_same.
    rewrite dict_get_update_other by discriminate. reflexivity.
Qed.

Lemma lastn_lastn {A} (n m : nat) (l : list A) :
  n <= m -> lastn n (lastn m l) = lastn n l.
Proof.
  intros H. unfold lastn at 1 3. rewrite lastn_length. unfold lastn.
  rewrite skipn_skipn. f_equal. lia.
Qed.

(** X14. The window the drift check reads is not affected by the
    eviction of old values: for a window of 1 to 1000 values, the last
    values of a series after any insertions are the last values of what
    it held followed by what was inserted. *)
Theorem drift_window_is_most_recent (window : nat) (d xs : list pyval) :
  List.length d <= business_maxlen ->
  0 < window <= business_maxlen ->
  last_slice window (Deque.extend business_maxlen xs d)
  = last_slice window (d ++ xs)%list
  /\ List.length (last_slice window (Deque.extend business_maxlen xs d))
     = Nat.min window (List.length d + List.length xs).
Proof.
  intros Hd [Hw Hw']. unfold last_slice.
  destruct (Nat.eqb_spec window 0) as [->|_]; [lia|].
  rewrite extend_lastn by assumption.
  rewrite lastn_lastn by assumption.
  split; [reflexivity|]. now rewrite lastn_length, length_app.
Qed.

Lemma drift_window_is_most_recent_witness :
  last_slice 100
    (Deque.extend business_maxlen
       (map (fun i => PyInt (Z.of_nat i)) (seq 0 1050)) [PyInt 7])
  = last_slice 100
      ([PyInt 7] ++ map (fun i => PyInt (Z.of_nat i)) (seq 0 1050))%list.
Proof.
  refine (proj1 (@drift_window_is_most_recent 100 [PyInt 7] _ _ _)).
  - apply Nat.leb_le. reflexivity.
  - split; apply Nat.leb_le; reflexivity.
Defined.

Close Scope string_scope.

End PredictionCompositions.

(** ** The drift estimator, beyond the empty sample *)

Section DriftRange.

Import Py Drift Operations.
Open Scope R_scope.

Lemma filter_none {A} (f : A -> bool) (l : list A) :
  (forall x, In x l -> f x = false) -> filter f l = [].
Proof.
  induction l as [|x l IH]; intros H; [reflexivity|].
  cbn [filter]. rewrite (H x (or_introl eq_refl)).
  apply IH. intros y Hy. apply H. now right.
Qed.

Lemma in_bin_between lo hi last x :
  in_bin lo hi last x = true -> (lo <= x /\ x <= hi)%Q.
Proof.
  unfold in_bin. rewrite andb_true_iff. intros [Hlo Hhi].
  apply Qle_bool_iff in Hlo. split; [exact Hlo|].
  destruct last.
  - now apply Qle_bool_iff.
  - apply negb_true_iff in Hhi. apply Qlt_le_weak, Qnot_le_lt.
    intros H. apply Qle_bool_iff in H. congruence.
Qed.

Lemma bins_in_unit_interval : Forall in_unit_interval bins.
Proof.
  apply Forall_forall. intros e He.
  assert (H : forallb (fun e => Qle_bool 0 e && Qle_bool e 1) bins = true)
    by (vm_compute; reflexivity).
  rewrite forallb_forall in H. specialize (H e He).
  apply andb_true_iff in H. destruct H as [H0 H1].
  split; now apply Qle_bool_iff.
Qed.

(** Values outside the edges are counted in no bin. *)
Lemma bin_counts_app_outside (data outside : list Q) : forall edges,
  Forall in_unit_interval edges ->
  Forall (fun x => ~ in_unit_interval x) outside ->
  bin_counts (data ++ outside) edges = bin_counts data edges.
Proof.
  intros edges He Hout. induction He as [|lo rest Hlo Hrest IH];
    [reflexivity|].
  destruct rest as [|hi rest]; [reflexivity|].
  rewrite !bin_counts_step, IH. f_equal.
  rewrite filter_app, (filter_none _ outside), app_nil_r; [reflexivity|].
  intros x Hx. destruct (in_bin lo hi _ x) eqn:E; [|reflexivity].
  apply in_bin_between in E. exfalso.
  rewrite Forall_forall in Hout. apply (Hout x Hx).
  inversion Hrest as [|? ? Hhi _]; subst.
  destruct Hlo as [Hlo _], Hhi as [_ Hhi], E as [E1 E2].
  split; eapply Qle_trans; eauto.
Qed.

Lemma bin_counts_none_inside (data : list Q) :
  ~ Exists in_unit_interval data -> list_sum (bin_counts data bins) = 0%nat.
Proof.
  intros H.
  rewrite <- (app_nil_l data), bin_counts_app_outside.
  - reflexivity.
  - apply bins_in_unit_interval.
  - apply Forall_Exists_neg, H.
Qed.

Lemma bin_counts_some_inside (data : list Q) :
  Exists in_unit_interval data -> (0 < list_sum (bin_counts data bins))%nat.
Proof.
  intros H. apply Exists_exists in H. destruct H as (x & Hin & H0 & H1).
  change bins with (hd 0%Q bins :: tl bins).
  apply (bin_counts_cover data x Hin); [discriminate| |].
  - apply Qle_bool_iff. eapply Qle_trans; [|exact H0].
    vm_compute. discriminate.
  - apply Qle_bool_iff. eapply Qle_trans; [exact H1|].
    vm_compute. discriminate.
Qed.

(** The arrays the divergence is computed from: the histogram, smoothed
    and normalised. *)
Lemma prepared_positive (hist : list npfloat) :
  Forall nonnegative hist ->
  Forall positive
    (map (fun v => fdiv v (np_sum (map (fun v => fadd v (Num epsilon)) hist)))
       (map (fun v => fadd v (Num epsilon)) hist)).
Proof. intros H. apply normalised_positive, smoothed_positive, H. Qed.

Lemma prepared_nan (hist : list npfloat) :
  all_nan hist ->
  all_nan
    (map (fun v => fdiv v (np_sum (map (fun v => fadd v (Num epsilon)) hist)))
       (map (fun v => fadd v (Num epsilon)) hist)).
Proof. intros H. repeat apply all_nan_map; auto. Qed.

Lemma divergence_term p q :
  0 < p -> 0 < q ->
  fmul (Num p) (flog (fdiv (Num p) (Num q))) = Num (p * ln (p / q)).
Proof.
  intros Hp Hq. rewrite fdiv_by_pos by assumption.
  unfold flog. rewrite sign_of_pos by now apply Rdiv_lt_0_compat.
  reflexivity.
Qed.

Lemma divergence_is_a_number (p : list npfloat) :
  Forall positive p ->
  forall q s, Forall positive q ->
    exists d,
      fold_left fadd (zip_with fmul p (map flog (zip_with fdiv p q))) (Num s)
      = Num d.
Proof.
  induction 1 as [|v p (a & -> & Ha) Hp IH]; intros q s Hq.
  - exists s. reflexivity.
  - destruct Hq as [|w q (b & -> & Hb) Hq]; [exists s; reflexivity|].
    cbn [zip_with map fold_left]. rewrite divergence_term by assumption.
    cbn [fadd]. apply IH, Hq.
Qed.

Lemma divergence_nan (p q : list npfloat) :
  all_nan p \/ all_nan q ->
  List.length p = 10%nat -> List.length q = 10%nat ->
  np_sum (zip_with fmul p (map flog (zip_with fdiv p q))) = NaN.
Proof.
  intros Hnan Lp Lq. apply np_sum_nan.
  - destruct Hnan as [Hp|Hq].
    + apply zip_with_Forall with (P := eq NaN) (Q := fun _ => True).
      * now intros ? ? <- _.
      * exact Hp.
      * apply Forall_trivial.
    + apply zip_with_Forall with (P := fun _ => True) (Q := eq NaN).
      * intros x ? _ <-. symmetry. apply fmul_nan_r.
      * apply Forall_trivial.
      * apply all_nan_map; [reflexivity|].
        apply zip_with_Forall with (P := fun _ => True) (Q := eq NaN).
        -- intros x ? _ <-. symmetry. apply fdiv_nan_r.
        -- apply Forall_trivial.
        -- exact Hq.
  - apply nonempty_of_length with (n := 9%nat).
    now rewrite zip_with_length, length_map, zip_with_length, Lp, Lq.
Qed.

(** X15. The drift of two samples of finite values is never the fallback
    0.0 of the handler and never logs: it is a number when each sample
    has a value within [0, 1], and NaN as soon as one of them has none,
    be it empty or, like percentages, entirely outside the interval. *)
Theorem drift_is_a_number_iff_samples_reach_the_bins
  (current_data baseline_data : list Q) :
  snd (_calculate_distribution_drift current_data baseline_data) = []
  /\ (Exists in_unit_interval current_data ->
      Exists in_unit_interval baseline_data ->
      exists d,
        fst (_calculate_distribution_drift current_data baseline_data)
        = Num d)
  /\ (~ Exists in_unit_interval current_data
      \/ ~ Exists in_unit_interval baseline_data ->
      fst (_calculate_distribution_drift current_data baseline_data) = NaN).
Proof.
  destruct (np_histogram_shape current_data)
    as (hc & Hc & Lc & Hcnan & Hcpos).
  destruct (np_histogram_shape baseline_data)
    as (hb & Hb & Lb & Hbnan & Hbpos).
  unfold _calculate_distribution_drift, kl_divergence.
  rewrite Hc, Hb. cbv zeta. cbn [fst snd].
  split; [reflexivity|]. split.
  - intros Ec Eb.
    apply divergence_is_a_number; apply prepared_positive;
      [apply Hcpos | apply Hbpos]; now apply bin_counts_some_inside.
  - intros Hnone. apply divergence_nan.
    + destruct Hnone as [H|H]; [left | right]; apply prepared_nan;
        [apply Hcnan | apply Hbnan]; now apply bin_counts_none_inside.
    + now rewrite !length_map.
    + now rewrite !length_map.
Qed.

Lemma drift_is_a_number_iff_samples_reach_the_bins_witness :
  fst (_calculate_distribution_drift [50; 60]%Q [0.3; 0.7]%Q) = NaN.
Proof.
  apply (proj2 (proj2 (drift_is_a_number_iff_samples_reach_the_bins
                         [50; 60]%Q [0.3; 0.7]%Q))).
  left. intros H. apply Exists_exists in H.
  destruct H as (x & [<-|[<-|[]]] & _ & H1); apply H1; reflexivity.
Defined.

(** X16. Values outside [0, 1] do not take part in the drift: adding
    such values to the current sample or to the baseline leaves the
    result as it is. *)
Theorem drift_ignores_values_outside_unit_interval
  (current_data baseline_data outside : list Q) :
  Forall (fun x => ~ in_unit_interval x) outside ->
  _calculate_distribution_drift (current_data ++ outside) baseline_data
  = _calculate_distribution_drift current_data baseline_data
  /\ _calculate_distribution_drift current_data (baseline_data ++ outside)
     = _calculate_distribution_drift current_data baseline_data.
Proof.
  intros Hout.
  assert (H : forall data,
             np_histogram (data ++ outside) bins = np_histogram data bins).
  { intros data. unfold np_histogram.
    now rewrite (@bin_counts_app_outside data outside bins
                   bins_in_unit_interval Hout). }
  unfold _calculate_distribution_drift, kl_divergence.
  now rewrite !H.
Qed.

Lemma drift_ignores_values_outside_unit_interval_witness :
  _calculate_distribution_drift ([0.2; 0.4] ++ [1.5; -0.1; 87])%Q [0.3]%Q
  = _calculate_distribution_drift [0.2; 0.4]%Q [0.3]%Q
  /\ _calculate_distribution_drift [0.2; 0.4]%Q ([0.3] ++ [1.5; -0.1; 87])%Q
     = _calculate_distribution_drift [0.2; 0.4]%Q [0.3]%Q.
Proof.
  apply drift_ignores_values_outside_unit_interval.
  repeat constructor; intros [H0 H1]; vm_compute in H0, H1; congruence.
Defined.

Close Scope R_scope.

End DriftRange.
